(** * input_handlers.py: event handlers of the roguelike, and their turn protocol

    A shallow embedding of [src/input_handlers.py].  Handler objects live in
    an object store (Python references), the engine is a record, and every
    method is a computation in a state-and-exception monad: a Python call
    either returns a value or raises, and in both cases it leaves a state
    behind. *)

From Stdlib Require Import ZArith String Lia.
From stdpp Require Import base decidable option list.

Local Open Scope Z_scope.

(** ** Key symbols

    [tcod.event.K_*] is an enumeration of integers supplied by the input
    layer.  The constructors below are the symbols the module names;
    [K_OTHER code] stands for every key symbol the module never mentions. *)

Inductive KeySym : Type :=
  | K_UP | K_DOWN | K_LEFT | K_RIGHT
  | K_HOME | K_END | K_PAGEUP | K_PAGEDOWN
  | K_KP_1 | K_KP_2 | K_KP_3 | K_KP_4 | K_KP_5
  | K_KP_6 | K_KP_7 | K_KP_8 | K_KP_9
  | K_h | K_j | K_k | K_l | K_y | K_u | K_b | K_n
  | K_PERIOD | K_CLEAR
  | K_v | K_g | K_ESCAPE
  | K_LSHIFT | K_RSHIFT | K_LCTRL | K_RCTRL | K_LALT | K_RALT
  | K_OTHER (code : Z).

#[global] Instance KeySym_eq_dec : EqDecision KeySym.
Proof. solve_decision. Defined.

(** ** Dictionaries and sets keyed by key symbols

    The module's tables are dict and set literals without repeated keys;
    they are kept in source order. *)

Section Dict.
Context {V : Type}.

(** [d.get(k)]: [Some v] when [k in d] (and then [d[k] = v]), else [None]. *)
Fixpoint dict_get (d : list (KeySym * V)) (k : KeySym) : option V :=
  match d with
  | [] => None
  | (k', v) :: rest => if decide (k = k') then Some v else dict_get rest k
  end.

Definition dict_keys (d : list (KeySym * V)) : list KeySym := d.*1.
End Dict.

(** [k in s] for a set literal. *)
Definition set_mem (k : KeySym) (s : list KeySym) : bool :=
  bool_decide (k ∈ s).

Definition MOVE_KEYS : list (KeySym * (Z * Z)) :=
  [ (* Arrow keys. *)
    (K_UP, (0, -1));
    (K_DOWN, (0, 1));
    (K_LEFT, (-1, 0));
    (K_RIGHT, (1, 0));
    (K_HOME, (-1, -1));
    (K_END, (-1, 1));
    (K_PAGEUP, (1, -1));
    (K_PAGEDOWN, (1, 1));
    (* Numpad keys. *)
    (K_KP_1, (-1, 1));
    (K_KP_2, (0, 1));
    (K_KP_3, (1, 1));
    (K_KP_4, (-1, 0));
    (K_KP_5, (0, 0));
    (K_KP_6, (1, 0));
    (K_KP_7, (-1, -1));
    (K_KP_8, (0, -1));
    (K_KP_9, (1, -1));
    (* Vi keys. *)
    (K_h, (-1, 0));
    (K_j, (0, 1));
    (K_k, (0, -1));
    (K_l, (1, 0));
    (K_y, (-1, -1));
    (K_u, (1, -1));
    (K_b, (-1, 1));
    (K_n, (1, 1)) ].

Definition WAIT_KEYS : list KeySym :=
  [ K_PERIOD; K_KP_5; K_CLEAR ].

Definition CURSOR_Y_KEYS : list (KeySym * Z) :=
  [ (K_UP, -1);
    (K_DOWN, 1);
    (K_PAGEUP, -10);
    (K_PAGEDOWN, 10) ].

(** The set literal tested by [AskUserEventHandler.ev_keydown]. *)
Definition MODIFIER_KEYS : list KeySym :=
  [ K_LSHIFT; K_RSHIFT; K_LCTRL; K_RCTRL; K_LALT; K_RALT ].

(** ** Actions, exceptions and events *)

(** Entities and handler objects are Python objects: they are referred to by
    reference. *)
Definition Entity := nat.
Definition Ref := nat.

(** The four action classes the module imports; each is built from the
    acting entity, [BumpAction] also from an offset. *)
Inductive Action : Type :=
  | BumpAction (entity : Entity) (dx dy : Z)
  | WaitAction (entity : Entity)
  | PickupAction (entity : Entity)
  | EscapeAction (entity : Entity).

(** What a call can raise.  [Impossible msg] is [exceptions.Impossible] with
    [exc.args[0] = msg]; [AttributeError] is raised by an attribute read on an
    object that lacks the attribute; [OtherException] is anything else a
    collaborator raises. *)
Inductive Exception : Type :=
  | Impossible (msg : string)
  | SystemExit
  | AttributeError
  | OtherException (name : string).

Inductive Outcome (A : Type) : Type :=
  | Return (a : A)
  | Raise (exc : Exception).
Arguments Return {A} a.
Arguments Raise {A} exc.

(** The input events ([tcod.event.Event]); [OtherEvent] is any kind for
    which the module defines no [ev_*] method. *)
Inductive Event : Type :=
  | KeyDown (sym : KeySym)
  | MouseMotion (tile_x tile_y : Z)
  | Quit
  | OtherEvent.

(** ** Handler objects

    One constructor per concrete class of the module.  Only [HistoryViewer]
    has attributes of its own; every handler also holds the one engine. *)
Inductive Handler : Type :=
  | AskUserEventHandler
  | MainGameEventHandler
  | GameOverEventHandler
  | HistoryViewer (log_length cursor : Z).

Definition Color : Type := Z * Z * Z.
Definition Message : Type := string * Color.

(** Calls into collaborators, in the order the handlers make them. *)
Inductive Call : Type :=
  | CallPerform (action : Action)
  | CallAddMessage (text : string) (fg : Color)
  | CallHandleEnemyTurns
  | CallUpdateFov.

Section Handlers.

(** Everything the engine owns that this module never looks into: the map,
    the entities, the visibility state. *)
Context {World : Type}.

Record Engine : Type := mkEngine {
  message_log : list Message;     (* engine.message_log.messages *)
  event_handler : Ref;            (* engine.event_handler *)
  mouse_location : Z * Z;         (* engine.mouse_location *)
  player : Entity;                (* engine.player *)
  world : World
}.

(** The engine together with the store of handler objects: the part of the
    state collaborators can read and change. *)
Record Session : Type := mkSession {
  engine : Engine;
  objects : list Handler
}.

(** A session and the trace of collaborator calls made so far. *)
Record State : Type := mkState {
  session : Session;
  calls : list Call
}.

(** The collaborators the module calls but does not define.  [perform]
    may raise and leaves a session behind either way. *)
Class Collaborators : Type := {
  perform : Action -> Session -> Outcome unit * Session;  (* action.perform() *)
  handle_enemy_turns : Session -> Session;   (* engine.handle_enemy_turns() *)
  update_fov : Session -> Session;           (* engine.update_fov() *)
  in_bounds : Session -> Z -> Z -> bool;     (* engine.game_map.in_bounds(x, y) *)
  color_impossible : Color                   (* color.impossible *)
}.

Context `{Collab : Collaborators}.

(** *** The monad of method bodies *)

Definition M (A : Type) : Type := State -> Outcome A * State.

Definition ret {A} (a : A) : M A := fun st => (Return a, st).

Definition raise {A} (exc : Exception) : M A := fun st => (Raise exc, st).

Definition bind {A B} (c : M A) (k : A -> M B) : M B :=
  fun st =>
    match c st with
    | (Return a, st') => k a st'
    | (Raise exc, st') => (Raise exc, st')
    end.

Notation "'let*' x ':=' c 'in' k" := (bind c (fun x => k))
  (at level 10, x name, c at level 100, k at level 200, only parsing).

Notation "'let*' ''' p ':=' c 'in' k" :=
  (bind c (fun x => let 'p := x in k))
  (at level 10, p strict pattern, c at level 100, k at level 200,
   only parsing).

(** [try: body / except Impossible as exc: handler(exc.args[0]) / else: k]:
    only [Impossible] is caught, any other exception propagates. *)
Definition try_except_Impossible {A B}
    (body : M A) (handler : string -> M B) (k : A -> M B) : M B :=
  fun st =>
    match body st with
    | (Return a, st') => k a st'
    | (Raise (Impossible msg), st') => handler msg st'
    | (Raise exc, st') => (Raise exc, st')
    end.

(** *** Primitive state accesses *)

Definition get_engine : M Engine := fun st => (Return (engine (session st)), st).

Definition modify_session (f : Session -> Session) : M unit :=
  fun st => (Return tt, mkState (f (session st)) (calls st)).

Definition record_call (c : Call) : M unit :=
  fun st => (Return tt, mkState (session st) (calls st ++ [c])).

Definition set_message_log (l : list Message) (s : Session) : Session :=
  let e := engine s in
  mkSession
    (mkEngine l (event_handler e) (mouse_location e) (player e) (world e))
    (objects s).

Definition set_event_handler (r : Ref) (s : Session) : Session :=
  let e := engine s in
  mkSession
    (mkEngine (message_log e) r (mouse_location e) (player e) (world e))
    (objects s).

Definition set_mouse_location (p : Z * Z) (s : Session) : Session :=
  let e := engine s in
  mkSession
    (mkEngine (message_log e) (event_handler e) p (player e) (world e))
    (objects s).

(** Object creation: the new object gets the next free reference. *)
Definition new_object (h : Handler) : M Ref :=
  fun st =>
    let s := session st in
    (Return (length (objects s)),
     mkState (mkSession (engine s) (objects s ++ [h])) (calls st)).

(** The object a reference points to. *)
Definition deref (r : Ref) : M Handler :=
  fun st =>
    match objects (session st) !! r with
    | Some h => (Return h, st)
    | None => (Raise AttributeError, st)
    end.

(** [self.log_length] and [self.cursor], read together. *)
Definition get_history (self : Ref) : M (Z * Z) :=
  let* h := deref self in
  match h with
  | HistoryViewer log_length cursor => ret (log_length, cursor)
  | _ => raise AttributeError
  end.

(** [self.cursor = v] on a [HistoryViewer]. *)
Definition set_cursor (self : Ref) (v : Z) : M unit :=
  modify_session (fun s =>
    mkSession (engine s)
      (alter (fun h => match h with
                       | HistoryViewer log_length _ => HistoryViewer log_length v
                       | _ => h
                       end) self (objects s))).

(** *** Collaborator calls *)

Definition call_perform (a : Action) : M unit :=
  let* _ := record_call (CallPerform a) in
  fun st =>
    let '(r, s') := perform a (session st) in
    (r, mkState s' (calls st)).

(** Modelled from the spec: [message_log.add_message(text, fg)], whose
    definition is outside this module, is the message log's "append message
    with a style tag". *)
Definition add_message (text : string) (fg : Color) : M unit :=
  let* _ := record_call (CallAddMessage text fg) in
  modify_session (fun s =>
    set_message_log (message_log (engine s) ++ [(text, fg)]) s).

Definition call_handle_enemy_turns : M unit :=
  let* _ := record_call CallHandleEnemyTurns in
  modify_session handle_enemy_turns.

Definition call_update_fov : M unit :=
  let* _ := record_call CallUpdateFov in
  modify_session update_fov.

(** *** class EventHandler *)

(** [EventHandler.handle_action]. *)
Definition EventHandler_handle_action (self : Ref) (action : option Action)
    : M bool :=
  match action with
  | None => ret false
  | Some a =>
      try_except_Impossible
        (call_perform a)
        (fun msg =>
           let* _ := add_message msg color_impossible in
           ret false)  (* Skip enemy turn on exceptions. *)
        (fun _ =>
           let* _ := call_handle_enemy_turns in
           let* _ := call_update_fov in
           ret true)
  end.

(** [EventHandler.ev_mousemotion]. *)
Definition EventHandler_ev_mousemotion (self : Ref) (tile_x tile_y : Z)
    : M (option Action) :=
  fun st =>
    if in_bounds (session st) tile_x tile_y
    then (Return None,
          mkState (set_mouse_location (tile_x, tile_y) (session st)) (calls st))
    else (Return None, st).

(** [EventHandler.ev_quit]. *)
Definition EventHandler_ev_quit (self : Ref) : M (option Action) :=
  raise SystemExit.

(** [self.engine.event_handler = MainGameEventHandler(self.engine)]. *)
Definition enter_MainGameEventHandler : M unit :=
  let* h := new_object MainGameEventHandler in
  modify_session (set_event_handler h).

(** *** class AskUserEventHandler *)

(** [AskUserEventHandler.handle_action]. *)
Definition AskUserEventHandler_handle_action (self : Ref)
    (action : option Action) : M bool :=
  let* advanced := EventHandler_handle_action self action in
  if advanced : bool then
    let* _ := enter_MainGameEventHandler in
    ret true
  else ret false.

(** [AskUserEventHandler.on_exit]. *)
Definition AskUserEventHandler_on_exit (self : Ref) : M (option Action) :=
  let* _ := enter_MainGameEventHandler in
  ret None.

(** [AskUserEventHandler.ev_keydown]. *)
Definition AskUserEventHandler_ev_keydown (self : Ref) (sym : KeySym)
    : M (option Action) :=
  if set_mem sym MODIFIER_KEYS  (* Ignore modifier keys. *)
  then ret None
  else AskUserEventHandler_on_exit self.

(** *** class HistoryViewer *)

(** [HistoryViewer.__init__], as part of [HistoryViewer(engine)]: the new
    object's reference is returned. *)
Definition new_HistoryViewer : M Ref :=
  let* e := get_engine in
  let log_length := Z.of_nat (length (message_log e)) in
  new_object (HistoryViewer log_length (log_length - 1)).

(** [HistoryViewer.ev_keydown]. *)
Definition HistoryViewer_ev_keydown (self : Ref) (sym : KeySym)
    : M (option Action) :=
  let* _ :=
    match dict_get CURSOR_Y_KEYS sym with
    | Some adjust =>
        let* '(log_length, cursor) := get_history self in
        if (adjust <? 0) && (cursor =? 0) then
          (* Only move from the top to the bottom when you're on the edge. *)
          set_cursor self (log_length - 1)
        else if (adjust >? 0) && (cursor =? log_length - 1) then
          (* Same with bottom to top movement. *)
          set_cursor self 0
        else
          (* Otherwise move while staying clamped to the bounds of the
             history log. *)
          set_cursor self (Z.max 0 (Z.min (cursor + adjust) (log_length - 1)))
    | None =>
        if decide (sym = K_HOME) then
          set_cursor self 0  (* Move directly to the top message. *)
        else if decide (sym = K_END) then
          let* '(log_length, _) := get_history self in
          set_cursor self (log_length - 1)  (* Move directly to the last message. *)
        else  (* Any other key moves back to the main game state. *)
          enter_MainGameEventHandler
    end in
  ret None.

(** *** class MainGameEventHandler *)

(** [MainGameEventHandler.ev_keydown]. *)
Definition MainGameEventHandler_ev_keydown (self : Ref) (key : KeySym)
    : M (option Action) :=
  let* e := get_engine in
  let player := player e in
  match dict_get MOVE_KEYS key with
  | Some (dx, dy) => ret (Some (BumpAction player dx dy))
  | None =>
      if set_mem key WAIT_KEYS then ret (Some (WaitAction player))
      else if decide (key = K_v) then
        let* h := new_HistoryViewer in
        let* _ := modify_session (set_event_handler h) in
        ret None
      else if decide (key = K_g) then ret (Some (PickupAction player))
      else if decide (key = K_ESCAPE) then ret (Some (EscapeAction player))
      else ret None
  end.

(** *** class GameOverEventHandler *)

(** [GameOverEventHandler.ev_keydown]. *)
Definition GameOverEventHandler_ev_keydown (self : Ref) (sym : KeySym)
    : M (option Action) :=
  if decide (sym = K_ESCAPE) then raise SystemExit
  else ret None.

(** *** Method resolution

    A method call on [self] runs the definition of the class of the object
    [self] refers to, or the one it inherits from [EventHandler]. *)

Definition ev_keydown (self : Ref) (sym : KeySym) : M (option Action) :=
  let* h := deref self in
  match h with
  | AskUserEventHandler => AskUserEventHandler_ev_keydown self sym
  | MainGameEventHandler => MainGameEventHandler_ev_keydown self sym
  | GameOverEventHandler => GameOverEventHandler_ev_keydown self sym
  | HistoryViewer _ _ => HistoryViewer_ev_keydown self sym
  end.

Definition handle_action (self : Ref) (action : option Action) : M bool :=
  let* h := deref self in
  match h with
  | AskUserEventHandler => AskUserEventHandler_handle_action self action
  | _ => EventHandler_handle_action self action
  end.

(** Modelled from the spec: [tcod.event.EventDispatch.dispatch], which the
    module inherits, "routes an event to a per-kind handler method; default
    behavior for unrecognized event kinds is no action". *)
Definition dispatch (self : Ref) (event : Event) : M (option Action) :=
  match event with
  | KeyDown sym => ev_keydown self sym
  | MouseMotion tile_x tile_y => EventHandler_ev_mousemotion self tile_x tile_y
  | Quit => EventHandler_ev_quit self
  | OtherEvent => ret None
  end.

(** [EventHandler.handle_events]. *)
Definition handle_events (self : Ref) (event : Event) : M unit :=
  let* action := dispatch self event in
  let* _ := handle_action self action in
  ret tt.

End Handlers.

(** ** Observations on a state *)

Section Observations.
Context {World : Type}.

(** The object [engine.event_handler] refers to. *)
Definition active_handler (st : @State World) : option Handler :=
  objects (session st) !! event_handler (engine (session st)).

(** [self.cursor] and [self.log_length] of a [HistoryViewer]. *)
Definition cursor_of (self : Ref) (st : @State World) : option Z :=
  match objects (session st) !! self with
  | Some (HistoryViewer _ cursor) => Some cursor
  | _ => None
  end.

Definition log_length_of (self : Ref) (st : @State World) : option Z :=
  match objects (session st) !! self with
  | Some (HistoryViewer log_length _) => Some log_length
  | _ => None
  end.

(** The state in which the object at [self] is replaced by [h]. *)
Definition with_object (self : Ref) (h : Handler) (st : @State World)
    : @State World :=
  mkState
    (mkSession (engine (session st)) (<[self := h]> (objects (session st))))
    (calls st).

(** The state in which a new object [h] has been created. *)
Definition with_new_object (h : Handler) (st : @State World) : @State World :=
  mkState
    (mkSession (engine (session st)) (objects (session st) ++ [h]))
    (calls st).

(** The state after [self.engine.event_handler = MainGameEventHandler(...)]. *)
Definition entered_main (st : @State World) : @State World :=
  mkState
    (set_event_handler (length (objects (session st)))
       (mkSession (engine (session st))
          (objects (session st) ++ [MainGameEventHandler])))
    (calls st).
End Observations.

(** ** The cursor rule in the words of the specification *)

(** [clamp(x, lo, hi)]: [x] brought into the range from [lo] to [hi]. *)
Definition clamp (x lo hi : Z) : Z :=
  if x <? lo then lo else if hi <? x then hi else x.

(** "If the step is negative and cursor == 0: wrap to log_length - 1.  Else
    if the step is positive and cursor == log_length - 1: wrap to 0.  Else:
    clamp(cursor + step, 0, log_length - 1)." *)
Definition spec_cursor_step (log_length cursor step : Z) : Z :=
  if (step <? 0) && (cursor =? 0) then log_length - 1
  else if (0 <? step) && (cursor =? log_length - 1) then 0
  else clamp (cursor + step) 0 (log_length - 1).

(** "up: -1, down: +1, page up: -10, page down: +10". *)
Definition spec_vertical_steps : list (KeySym * Z) :=
  [ (K_UP, -1); (K_DOWN, 1); (K_PAGEUP, -10); (K_PAGEDOWN, 10) ].

(** The cursor the code computes for a vertical step, as written in
    [HistoryViewer.ev_keydown]. *)
Definition code_cursor_step (log_length cursor adjust : Z) : Z :=
  if (adjust <? 0) && (cursor =? 0) then log_length - 1
  else if (adjust >? 0) && (cursor =? log_length - 1) then 0
  else Z.max 0 (Z.min (cursor + adjust) (log_length - 1)).

(** ** A small concrete session

    The player stands on a tile of a 10 by 10 map; a bump moves the player
    unless the destination is off the map, in which case the action is
    impossible. *)

Module Demo.
Definition World : Type := Z * Z.

Definition on_map (x y : Z) : bool :=
  (0 <=? x) && (x <? 10) && (0 <=? y) && (y <? 10).

Definition set_world (w : World) (s : @Session World) : @Session World :=
  let e := engine s in
  mkSession
    (mkEngine (message_log e) (event_handler e) (mouse_location e)
       (player e) w)
    (objects s).

Definition demo_perform (a : Action) (s : @Session World)
    : Outcome unit * @Session World :=
  match a with
  | BumpAction _ dx dy =>
      let '(x, y) := world (engine s) in
      if on_map (x + dx) (y + dy)
      then (Return tt, set_world (x + dx, y + dy) s)
      else (Raise (Impossible "That way is blocked."%string), s)
  | WaitAction _ => (Return tt, s)
  | PickupAction _ =>
      (Raise (Impossible "There is nothing here to pick up."%string), s)
  | EscapeAction _ => (Raise SystemExit, s)
  end.

Definition collab : @Collaborators World :=
  {| perform := demo_perform;
     handle_enemy_turns := fun s => s;
     update_fov := fun s => s;
     in_bounds := fun _ x y => on_map x y;
     color_impossible := (128, 128, 128) |}.

(** A state whose active handler is the object [h], with the given log. *)
Definition state_with (h : Handler) (log : list Message) : @State World :=
  mkState (mkSession (mkEngine log 0%nat (0, 0) 0%nat (0, 0)) [h]) [].

Definition welcome : list Message :=
  [ ("Hello and welcome, adventurer!"%string, (32, 160, 255)) ].

(** The player, in the corner of the map, bumps off the map... *)
Definition bump_off_map : Action := BumpAction 0%nat (-1) 0.

(** ... and onto the next tile. *)
Definition bump_east : Action := BumpAction 0%nat 1 0.

Definition blocked : string := "That way is blocked."%string.
End Demo.

(** ** Further observations and the history overlay *)

(** The entity an action was built for. *)
Definition action_entity (a : Action) : Entity :=
  match a with
  | BumpAction entity _ _ => entity
  | WaitAction entity => entity
  | PickupAction entity => entity
  | EscapeAction entity => entity
  end.

(** [l[:stop]], Python's slice from the start: a negative [stop] counts from
    the end, and a [stop] outside the list is cut to it. *)
Definition py_slice_to {A : Type} (l : list A) (stop : Z) : list A :=
  let len := Z.of_nat (length l) in
  let stop := if stop <? 0 then Z.max 0 (stop + len) else Z.min stop len in
  take (Z.to_nat stop) l.

Section Overlay.
Context {World : Type}.

(** The messages [HistoryViewer.on_render] hands to
    [message_log.render_messages]:
    [self.engine.message_log.messages[: self.cursor + 1]].  The console
    calls around it belong to tcod and are not modelled. *)
Definition HistoryViewer_shown_messages (self : Ref)
    : @M World (list Message) :=
  bind get_engine (fun e =>
  bind (get_history self) (fun '(_, cursor) =>
  ret (py_slice_to (message_log e) (cursor + 1)))).

(** What no key press may touch: the log, the hover location, the player,
    the world and the trace of collaborator calls. *)
Definition untouched_by_keys (st st' : @State World) : Prop :=
  message_log (engine (session st')) = message_log (engine (session st)) /\
  mouse_location (engine (session st')) = mouse_location (engine (session st)) /\
  player (engine (session st')) = player (engine (session st)) /\
  world (engine (session st')) = world (engine (session st)) /\
  calls st' = calls st.

(** The state after [self.engine.event_handler = HistoryViewer(self.engine)]. *)
Definition entered_history (st : @State World) : @State World :=
  let n := Z.of_nat (length (message_log (engine (session st)))) in
  mkState
    (set_event_handler (length (objects (session st)))
       (mkSession (engine (session st))
          (objects (session st) ++ [HistoryViewer n (n - 1)])))
    (calls st).

(** Handler objects other than [self] are kept, and a valid
    [engine.event_handler] stays valid. *)
Definition keeps_handlers (self : Ref) (st st' : @State World) : Prop :=
  (forall r h, r <> self ->
     objects (session st) !! r = Some h ->
     objects (session st') !! r = Some h) /\
  (is_Some (active_handler st) -> is_Some (active_handler st')).

(** The state after a mouse motion to the tile [(x, y)] was recorded. *)
Definition hovering (x y : Z) (st : @State World) : @State World :=
  mkState (set_mouse_location (x, y) (session st)) (calls st).
End Overlay.

(** ** Properties *)

Section Properties.
Context {World : Type} {Collab : @Collaborators World}.

Implicit Types (st : @State World) (s : @Session World).
Implicit Types (self : Ref) (sym key : KeySym).

(** *** The tables

    No key is repeated in a table, so looking a key up from the front of
    the list agrees with the dict literal. *)

Lemma MOVE_KEYS_keys_distinct : NoDup (dict_keys MOVE_KEYS).
Proof. apply (bool_decide_unpack _). vm_compute. exact I. Qed.

Lemma CURSOR_Y_KEYS_keys_distinct : NoDup (dict_keys CURSOR_Y_KEYS).
Proof. apply (bool_decide_unpack _). vm_compute. exact I. Qed.

Lemma dict_get_In {V : Type} (d : list (KeySym * V)) k v :
  dict_get d k = Some v -> In (k, v) d.
Proof.
  induction d as [|[k' v'] d IH]; cbn; [discriminate|].
  case_decide as Hk.
  - intros [= ->]. subst k'. left. reflexivity.
  - intros Hget. right. apply IH, Hget.
Qed.

(** *** How the primitives compute *)

Lemma set_cursor_on_history self v st n c :
  objects (session st) !! self = Some (HistoryViewer n c) ->
  set_cursor self v st = (Return tt, with_object self (HistoryViewer n v) st).
Proof.
  intros Hobj. unfold set_cursor, modify_session, with_object. cbn.
  do 3 f_equal. rewrite list_insert_alter.
  apply list_alter_ext; [|reflexivity].
  intros h Hh. pose proof (eq_trans (eq_sym Hh) Hobj) as E.
  injection E as ->. reflexivity.
Qed.

Lemma get_history_on_history self st n c :
  objects (session st) !! self = Some (HistoryViewer n c) ->
  get_history self st = (Return (n, c), st).
Proof.
  intros Hobj. unfold get_history, bind, deref. rewrite Hobj. reflexivity.
Qed.

Lemma enter_main_computes st :
  enter_MainGameEventHandler st = (Return tt, entered_main st).
Proof. reflexivity. Qed.

Lemma active_handler_entered_main st :
  active_handler (entered_main st) = Some MainGameEventHandler.
Proof.
  unfold active_handler, entered_main. cbn.
  apply list_lookup_middle. reflexivity.
Qed.

Lemma new_HistoryViewer_computes st :
  new_HistoryViewer st =
    (Return (length (objects (session st))),
     with_new_object
       (HistoryViewer
          (Z.of_nat (length (message_log (engine (session st)))))
          (Z.of_nat (length (message_log (engine (session st)))) - 1))
       st).
Proof. reflexivity. Qed.

Lemma lookup_with_new_object h st :
  objects (session (with_new_object h st)) !! length (objects (session st))
    = Some h.
Proof. cbn. apply list_lookup_middle. reflexivity. Qed.

(** Method resolution picks the class of the object. *)
Lemma ev_keydown_resolves self sym st h :
  objects (session st) !! self = Some h ->
  ev_keydown self sym st =
    match h with
    | AskUserEventHandler => AskUserEventHandler_ev_keydown self sym st
    | MainGameEventHandler => MainGameEventHandler_ev_keydown self sym st
    | GameOverEventHandler => GameOverEventHandler_ev_keydown self sym st
    | HistoryViewer _ _ => HistoryViewer_ev_keydown self sym st
    end.
Proof.
  intros Hobj. unfold ev_keydown, bind, deref. rewrite Hobj.
  destruct h; reflexivity.
Qed.

Lemma handle_action_resolves self action st h :
  objects (session st) !! self = Some h ->
  handle_action self action st =
    match h with
    | AskUserEventHandler => AskUserEventHandler_handle_action self action st
    | _ => EventHandler_handle_action self action st
    end.
Proof.
  intros Hobj. unfold handle_action, bind, deref. rewrite Hobj.
  destruct h; reflexivity.
Qed.

(** *** HistoryViewer: what each kind of key does *)

Lemma HistoryViewer_keydown_vertical self sym adjust st n c :
  objects (session st) !! self = Some (HistoryViewer n c) ->
  dict_get CURSOR_Y_KEYS sym = Some adjust ->
  HistoryViewer_ev_keydown self sym st =
    (Return None,
     with_object self (HistoryViewer n (code_cursor_step n c adjust)) st).
Proof.
  intros Hobj Hkey. unfold HistoryViewer_ev_keydown. rewrite Hkey.
  unfold bind at 1 2. rewrite (get_history_on_history _ _ _ _ Hobj).
  cbv beta iota. unfold code_cursor_step.
  destruct ((adjust <? 0) && (c =? 0)); cbv beta iota.
  { rewrite (set_cursor_on_history _ _ _ _ _ Hobj). reflexivity. }
  destruct ((adjust >? 0) && (c =? n - 1)); cbv beta iota.
  { rewrite (set_cursor_on_history _ _ _ _ _ Hobj). reflexivity. }
  rewrite (set_cursor_on_history _ _ _ _ _ Hobj). reflexivity.
Qed.

Lemma HistoryViewer_keydown_home self st n c :
  objects (session st) !! self = Some (HistoryViewer n c) ->
  HistoryViewer_ev_keydown self K_HOME st =
    (Return None, with_object self (HistoryViewer n 0) st).
Proof.
  intros Hobj. unfold HistoryViewer_ev_keydown.
  change (dict_get CURSOR_Y_KEYS K_HOME) with (@None Z).
  destruct (decide (K_HOME = K_HOME)) as [_|Hne]; [|contradiction].
  unfold bind. rewrite (set_cursor_on_history _ _ _ _ _ Hobj). reflexivity.
Qed.

Lemma HistoryViewer_keydown_end self st n c :
  objects (session st) !! self = Some (HistoryViewer n c) ->
  HistoryViewer_ev_keydown self K_END st =
    (Return None, with_object self (HistoryViewer n (n - 1)) st).
Proof.
  intros Hobj. unfold HistoryViewer_ev_keydown.
  change (dict_get CURSOR_Y_KEYS K_END) with (@None Z).
  destruct (decide (K_END = K_HOME)) as [Heq|_]; [discriminate Heq|].
  destruct (decide (K_END = K_END)) as [_|Hne]; [|contradiction].
  unfold bind at 1 2. rewrite (get_history_on_history _ _ _ _ Hobj).
  cbv beta iota. rewrite (set_cursor_on_history _ _ _ _ _ Hobj). reflexivity.
Qed.

Lemma HistoryViewer_keydown_other self sym st :
  dict_get CURSOR_Y_KEYS sym = None ->
  sym <> K_HOME -> sym <> K_END ->
  HistoryViewer_ev_keydown self sym st = (Return None, entered_main st).
Proof.
  intros Hkey Hhome Hend. unfold HistoryViewer_ev_keydown. rewrite Hkey.
  destruct (decide (sym = K_HOME)); [contradiction|].
  destruct (decide (sym = K_END)); [contradiction|].
  reflexivity.
Qed.

Lemma lookup_with_object self h st h0 :
  objects (session st) !! self = Some h0 ->
  objects (session (with_object self h st)) !! self = Some h.
Proof.
  intros Hobj. unfold with_object. cbn.
  apply list_lookup_insert_eq. eapply lookup_lt_Some, Hobj.
Qed.

(** *** The clamp of the code against the clamp of the specification *)

Lemma max_min_is_clamp x hi :
  0 <= hi -> Z.max 0 (Z.min x hi) = clamp x 0 hi.
Proof.
  intros Hhi. unfold clamp.
  destruct (Z.ltb_spec x 0), (Z.ltb_spec hi x); lia.
Qed.

Lemma code_step_is_spec_step n c step :
  0 < n -> code_cursor_step n c step = spec_cursor_step n c step.
Proof.
  intros Hn. unfold code_cursor_step, spec_cursor_step.
  rewrite Z.gtb_ltb, max_min_is_clamp by lia. reflexivity.
Qed.

(** *** The turn protocol of [handle_action] *)

Lemma call_perform_computes a st :
  call_perform a st =
    (fst (perform a (session st)),
     mkState (snd (perform a (session st))) (calls st ++ [CallPerform a])).
Proof.
  unfold call_perform, bind, record_call. cbn.
  destruct (perform a (session st)) as [r s']. reflexivity.
Qed.

Lemma EventHandler_handle_action_impossible self a msg st s' :
  perform a (session st) = (Raise (Impossible msg), s') ->
  EventHandler_handle_action self (Some a) st =
    (Return false,
     mkState
       (set_message_log
          (message_log (engine s') ++ [(msg, color_impossible)]) s')
       (calls st ++ [CallPerform a; CallAddMessage msg color_impossible])).
Proof.
  intros Hperf. unfold EventHandler_handle_action, try_except_Impossible.
  rewrite call_perform_computes, Hperf. cbn.
  rewrite <- app_assoc. reflexivity.
Qed.

Lemma EventHandler_handle_action_success self a st s1 :
  perform a (session st) = (Return tt, s1) ->
  EventHandler_handle_action self (Some a) st =
    (Return true,
     mkState
       (update_fov (handle_enemy_turns s1))
       (calls st ++ [CallPerform a; CallHandleEnemyTurns; CallUpdateFov])).
Proof.
  intros Hperf. unfold EventHandler_handle_action, try_except_Impossible.
  rewrite call_perform_computes, Hperf. cbn.
  rewrite <- !app_assoc. reflexivity.
Qed.

(** C1.  When [action.perform()] raises [Impossible msg],
    [EventHandler.handle_action] returns [False]; the session it leaves is the
    one the failed [perform] left, with exactly one message, [msg] in the
    colour [color.impossible], appended to the message log and nothing else
    changed (handler, mouse location, player, world and handler objects are
    those of that session); after the [perform] the only collaborator call is
    that one [add_message]: no enemy-turn pass, no visibility refresh. *)
Theorem handle_action_impossible_logs_and_skips self a msg st s' :
  perform a (session st) = (Raise (Impossible msg), s') ->
  let '(r, st') := EventHandler_handle_action self (Some a) st in
  r = Return false /\
  message_log (engine (session st')) =
    message_log (engine s') ++ [(msg, color_impossible)] /\
  event_handler (engine (session st')) = event_handler (engine s') /\
  mouse_location (engine (session st')) = mouse_location (engine s') /\
  player (engine (session st')) = player (engine s') /\
  world (engine (session st')) = world (engine s') /\
  objects (session st') = objects s' /\
  calls st' = calls st ++ [CallPerform a; CallAddMessage msg color_impossible].
Proof.
  intros Hperf.
  rewrite (EventHandler_handle_action_impossible _ _ _ _ _ Hperf).
  cbn. repeat split; reflexivity.
Qed.

(** C2.  When [action.perform()] returns, [EventHandler.handle_action] makes
    exactly two further collaborator calls, [engine.handle_enemy_turns()] and
    then [engine.update_fov()], applied in that order to the session the
    action left, and returns [True]; when the action is [None] it returns
    [False] and the state is untouched. *)
Theorem handle_action_success_advances_turn :
  (forall self a st s1,
     perform a (session st) = (Return tt, s1) ->
     EventHandler_handle_action self (Some a) st =
       (Return true,
        mkState
          (update_fov (handle_enemy_turns s1))
          (calls st ++ [CallPerform a; CallHandleEnemyTurns; CallUpdateFov])))
  /\
  (forall self st,
     EventHandler_handle_action self None st = (Return false, st)).
Proof.
  split.
  - intros self a st s1 Hperf.
    now apply EventHandler_handle_action_success.
  - intros self st. reflexivity.
Qed.

(** C7.  [AskUserEventHandler.handle_action]: when the action's [perform]
    returns, the turn advances as in the base class, then a fresh
    [MainGameEventHandler] becomes the active handler and the result is
    [True]; when [perform] raises [Impossible], or the action is [None], the
    result is [False] and no handler is created or activated (the active
    handler reference and the handler objects are those the failed
    [perform] left, resp. the state is untouched). *)
Theorem ask_user_handle_action_returns_to_main :
  (forall self a st s1,
     perform a (session st) = (Return tt, s1) ->
     exists st',
       AskUserEventHandler_handle_action self (Some a) st = (Return true, st')
       /\ st' = entered_main
                 (mkState
                    (update_fov (handle_enemy_turns s1))
                    (calls st ++
                       [CallPerform a; CallHandleEnemyTurns; CallUpdateFov]))
       /\ active_handler st' = Some MainGameEventHandler)
  /\
  (forall self a msg st s',
     perform a (session st) = (Raise (Impossible msg), s') ->
     exists st',
       AskUserEventHandler_handle_action self (Some a) st = (Return false, st')
       /\ event_handler (engine (session st')) = event_handler (engine s')
       /\ objects (session st') = objects s')
  /\
  (forall self st,
     AskUserEventHandler_handle_action self None st = (Return false, st)).
Proof.
  split; [|split].
  - intros self a st s1 Hperf. eexists. split; [|split; [reflexivity|]].
    + unfold AskUserEventHandler_handle_action, bind.
      rewrite (EventHandler_handle_action_success _ _ _ _ Hperf).
      rewrite enter_main_computes. reflexivity.
    + apply active_handler_entered_main.
  - intros self a msg st s' Hperf. eexists. split.
    + unfold AskUserEventHandler_handle_action, bind.
      rewrite (EventHandler_handle_action_impossible _ _ _ _ _ Hperf).
      reflexivity.
    + cbn. split; reflexivity.
  - intros self st. reflexivity.
Qed.

(** *** The history viewer's cursor *)

(** The steps the specification lists are the entries of [CURSOR_Y_KEYS]. *)
Lemma spec_steps_are_cursor_keys sym step :
  In (sym, step) spec_vertical_steps <->
  dict_get CURSOR_Y_KEYS sym = Some step.
Proof.
  split.
  - intros Hin. cbn in Hin.
    repeat (destruct Hin as [Hin|Hin];
            [injection Hin as <- <-; reflexivity|]).
    destruct Hin.
  - unfold CURSOR_Y_KEYS, spec_vertical_steps, dict_get.
    repeat (case_decide; [intros [= <-]; subst sym; cbn; tauto|]).
    discriminate.
Qed.

Lemma code_cursor_step_in_range n c adjust :
  1 <= n -> 0 <= code_cursor_step n c adjust <= n - 1.
Proof.
  intros Hn. unfold code_cursor_step.
  destruct ((adjust <? 0) && (c =? 0)); [lia|].
  destruct ((adjust >? 0) && (c =? n - 1)); lia.
Qed.

(** C3.  On a [HistoryViewer] with [log_length > 0], a key-down on [up],
    [down], [page up] or [page down] (steps -1, +1, -10, +10) returns no
    action and changes nothing but [self.cursor], which becomes what the
    specification's rule gives: [log_length - 1] for a negative step at
    cursor 0, else 0 for a positive step at cursor [log_length - 1], else
    [clamp(cursor + step, 0, log_length - 1)]. *)
Theorem history_vertical_key_moves_cursor self sym step st n c :
  objects (session st) !! self = Some (HistoryViewer n c) ->
  0 < n ->
  In (sym, step) spec_vertical_steps ->
  ev_keydown self sym st =
    (Return None,
     with_object self (HistoryViewer n (spec_cursor_step n c step)) st).
Proof.
  intros Hobj Hn Hin. apply spec_steps_are_cursor_keys in Hin.
  rewrite (ev_keydown_resolves _ _ _ _ Hobj).
  rewrite (HistoryViewer_keydown_vertical _ _ _ _ _ _ Hobj Hin).
  rewrite code_step_is_spec_step by exact Hn. reflexivity.
Qed.

(** C4, as the code has it.  A [HistoryViewer] created over an empty message
    log has [log_length = 0] and [cursor = -1]; a key-down on [up], [down],
    [page up] or [page down] then returns no action and sets the cursor to
    0. *)
Theorem history_empty_log_vertical_key_sets_zero sym step st :
  message_log (engine (session st)) = [] ->
  In (sym, step) spec_vertical_steps ->
  exists st1,
    new_HistoryViewer st = (Return (length (objects (session st))), st1) /\
    objects (session st1) !! length (objects (session st))
      = Some (HistoryViewer 0 (-1)) /\
    ev_keydown (length (objects (session st))) sym st1 =
      (Return None,
       with_object (length (objects (session st))) (HistoryViewer 0 0) st1).
Proof.
  intros Hlog Hin. apply spec_steps_are_cursor_keys in Hin.
  rewrite new_HistoryViewer_computes, Hlog. cbn [length Z.of_nat Z.sub Z.add Z.opp Z.pos_sub].
  set (st1 := with_new_object (HistoryViewer 0 (-1)) st).
  assert (Hobj : objects (session st1) !! length (objects (session st))
                 = Some (HistoryViewer 0 (-1)))
    by apply lookup_with_new_object.
  exists st1. split; [reflexivity|]. split; [exact Hobj|].
  rewrite (ev_keydown_resolves _ _ _ _ Hobj).
  rewrite (HistoryViewer_keydown_vertical _ _ _ _ _ _ Hobj Hin).
  do 3 f_equal.
  unfold CURSOR_Y_KEYS, dict_get in Hin.
  repeat (case_decide; [injection Hin as <-; reflexivity|]).
  discriminate.
Qed.

(** C10.  A [HistoryViewer] created over a non-empty log starts with
    [cursor = log_length - 1], which lies between 0 and [log_length - 1];
    and on a [HistoryViewer] with [log_length >= 1] and
    [0 <= cursor <= log_length - 1], every key-down returns, leaves
    [log_length] as it is and leaves a cursor between 0 and
    [log_length - 1]. *)
Theorem history_cursor_stays_in_range :
  (forall st,
     message_log (engine (session st)) <> [] ->
     exists st1 n,
       new_HistoryViewer st = (Return (length (objects (session st))), st1) /\
       objects (session st1) !! length (objects (session st))
         = Some (HistoryViewer n (n - 1)) /\
       n = Z.of_nat (length (message_log (engine (session st)))) /\
       1 <= n /\ 0 <= n - 1 <= n - 1)
  /\
  (forall self sym st n c,
     objects (session st) !! self = Some (HistoryViewer n c) ->
     1 <= n ->
     0 <= c <= n - 1 ->
     exists st' c',
       ev_keydown self sym st = (Return None, st') /\
       objects (session st') !! self = Some (HistoryViewer n c') /\
       0 <= c' <= n - 1).
Proof.
  split.
  - intros st Hlog. eexists. eexists.
    split; [apply new_HistoryViewer_computes|].
    split; [apply lookup_with_new_object|].
    split; [reflexivity|].
    destruct (message_log (engine (session st))); [contradiction|].
    cbn [length]. lia.
  - intros self sym st n c Hobj Hn Hc.
    rewrite (ev_keydown_resolves _ _ _ _ Hobj).
    destruct (dict_get CURSOR_Y_KEYS sym) as [adjust|] eqn:Hkey.
    { do 2 eexists. split; [|split].
      - apply (HistoryViewer_keydown_vertical _ _ _ _ _ _ Hobj Hkey).
      - eapply lookup_with_object, Hobj.
      - apply code_cursor_step_in_range, Hn. }
    destruct (decide (sym = K_HOME)) as [->|Hhome].
    { do 2 eexists. split; [|split].
      - apply (HistoryViewer_keydown_home _ _ _ _ Hobj).
      - eapply lookup_with_object, Hobj.
      - lia. }
    destruct (decide (sym = K_END)) as [->|Hend].
    { do 2 eexists. split; [|split].
      - apply (HistoryViewer_keydown_end _ _ _ _ Hobj).
      - eapply lookup_with_object, Hobj.
      - lia. }
    exists (entered_main st), c. split; [|split].
    + apply HistoryViewer_keydown_other; assumption.
    + cbn. apply lookup_app_l_Some, Hobj.
    + exact Hc.
Qed.

(** *** Key handling in the main game *)

(** C6.  For every entry [key: (dx, dy)] of [MOVE_KEYS], a key-down on [key]
    in [MainGameEventHandler] returns [BumpAction(player, dx, dy)] for the
    engine's player and changes no state. *)
Theorem main_keydown_move_key_bumps self key dx dy st :
  In (key, (dx, dy)) MOVE_KEYS ->
  MainGameEventHandler_ev_keydown self key st =
    (Return (Some (BumpAction (player (engine (session st))) dx dy)), st).
Proof.
  intros Hin. cbn in Hin.
  repeat (destruct Hin as [Hin|Hin];
          [injection Hin as <- <- <-; reflexivity|]).
  destruct Hin.
Qed.

(** C5 does not hold at [K_KP_5].  [K_KP_5] is in [WAIT_KEYS], yet a
    key-down on it in [MainGameEventHandler] returns
    [BumpAction(player, 0, 0)], because [MOVE_KEYS] is consulted first and
    also holds [K_KP_5]; the two other wait keys return
    [WaitAction(player)]. *)
Theorem main_keydown_kp5_bumps_in_place :
  In K_KP_5 WAIT_KEYS /\
  (forall self st,
     MainGameEventHandler_ev_keydown (World := World) self K_KP_5 st =
       (Return (Some (BumpAction (player (engine (session st))) 0 0)), st)) /\
  (forall self st,
     MainGameEventHandler_ev_keydown (World := World) self K_PERIOD st =
       (Return (Some (WaitAction (player (engine (session st))))), st)) /\
  (forall self st,
     MainGameEventHandler_ev_keydown (World := World) self K_CLEAR st =
       (Return (Some (WaitAction (player (engine (session st))))), st)).
Proof.
  split; [cbn; tauto|].
  repeat split; intros self st; reflexivity.
Qed.

(** *** Key handling in a modal prompt *)

Lemma set_mem_In key (keys : list KeySym) :
  set_mem key keys = true <-> In key keys.
Proof.
  unfold set_mem. rewrite bool_decide_eq_true. apply list_elem_of_In.
Qed.

(** C8.  In [AskUserEventHandler], a key-down on a key other than the six
    modifier keys returns no action and makes a fresh [MainGameEventHandler]
    the active handler, with no collaborator call and no other change; a
    key-down on one of the six modifier keys returns no action and leaves
    the state as it is. *)
Theorem ask_user_keydown_exits_unless_modifier :
  (forall self sym st,
     ~ In sym MODIFIER_KEYS ->
     AskUserEventHandler_ev_keydown (World := World) self sym st =
       (Return None, entered_main st) /\
     active_handler (entered_main st) = Some MainGameEventHandler /\
     calls (entered_main st) = calls st)
  /\
  (forall self sym st,
     In sym MODIFIER_KEYS ->
     AskUserEventHandler_ev_keydown (World := World) self sym st =
       (Return None, st)).
Proof.
  split.
  - intros self sym st Hnot. unfold AskUserEventHandler_ev_keydown.
    destruct (set_mem sym MODIFIER_KEYS) eqn:Hmem.
    { apply set_mem_In in Hmem. contradiction. }
    split; [reflexivity|]. split; [apply active_handler_entered_main|].
    reflexivity.
  - intros self sym st Hin. unfold AskUserEventHandler_ev_keydown.
    apply set_mem_In in Hin. rewrite Hin. reflexivity.
Qed.

(** *** Key handling after the game is over *)

(** C9.  In [GameOverEventHandler], a key-down on escape raises
    [SystemExit]; a key-down on any other key returns no action, raises
    nothing and leaves the whole state, the active handler included, as it
    is, and so does the whole of [handle_events] for that key-down, while
    [handle_events] lets the [SystemExit] of the escape key through. *)
Theorem game_over_keydown_only_escape_exits :
  (forall self st,
     GameOverEventHandler_ev_keydown (World := World) self K_ESCAPE st =
       (Raise SystemExit, st))
  /\
  (forall self sym st,
     sym <> K_ESCAPE ->
     GameOverEventHandler_ev_keydown (World := World) self sym st =
       (Return None, st))
  /\
  (forall self sym st,
     sym <> K_ESCAPE ->
     objects (session st) !! self = Some GameOverEventHandler ->
     handle_events self (KeyDown sym) st = (Return tt, st))
  /\
  (forall self st,
     objects (session st) !! self = Some GameOverEventHandler ->
     handle_events self (KeyDown K_ESCAPE) st = (Raise SystemExit, st)).
Proof.
  split; [reflexivity|]. split; [|split].
  - intros self sym st Hne. unfold GameOverEventHandler_ev_keydown.
    destruct (decide (sym = K_ESCAPE)); [contradiction|reflexivity].
  - intros self sym st Hne Hobj. unfold handle_events, dispatch, bind.
    rewrite (ev_keydown_resolves _ _ _ _ Hobj).
    unfold GameOverEventHandler_ev_keydown.
    destruct (decide (sym = K_ESCAPE)); [contradiction|].
    cbv beta iota delta [ret].
    rewrite (handle_action_resolves _ _ _ _ Hobj). reflexivity.
  - intros self st Hobj. unfold handle_events, dispatch, bind.
    rewrite (ev_keydown_resolves _ _ _ _ Hobj). reflexivity.
Qed.

End Properties.

(** ** Concrete runs *)

(** The examples of the specification's testable properties, on a viewer
    over five messages. *)
Example history_wrap_up :
  ev_keydown 0%nat K_UP (Demo.state_with (HistoryViewer 5 0) Demo.welcome) =
    (Return None, Demo.state_with (HistoryViewer 5 4) Demo.welcome).
Proof. reflexivity. Qed.

Example history_wrap_down :
  ev_keydown 0%nat K_DOWN (Demo.state_with (HistoryViewer 5 4) Demo.welcome) =
    (Return None, Demo.state_with (HistoryViewer 5 0) Demo.welcome).
Proof. reflexivity. Qed.

Example history_clamp_page_down :
  ev_keydown 0%nat K_PAGEDOWN
    (Demo.state_with (HistoryViewer 5 2) Demo.welcome) =
    (Return None, Demo.state_with (HistoryViewer 5 4) Demo.welcome).
Proof. reflexivity. Qed.

Example main_keydown_v_opens_history :
  ev_keydown 0%nat K_v (Demo.state_with MainGameEventHandler Demo.welcome) =
    (Return None,
     mkState
       (mkSession (mkEngine Demo.welcome 1%nat (0, 0) 0%nat (0, 0))
          [MainGameEventHandler; HistoryViewer 1 0])
       []).
Proof. reflexivity. Qed.

Example escape_action_exits :
  handle_events (Collab := Demo.collab) 0%nat (KeyDown K_ESCAPE)
    (Demo.state_with MainGameEventHandler Demo.welcome) =
    (Raise SystemExit,
     mkState
       (mkSession (mkEngine Demo.welcome 0%nat (0, 0) 0%nat (0, 0))
          [MainGameEventHandler])
       [CallPerform (EscapeAction 0%nat)]).
Proof. reflexivity. Qed.

(** *** Instances of the theorems *)

(** C1 at a bump off the map: the log gains the one message, nothing else
    moves. *)
Lemma handle_action_impossible_logs_and_skips_witness :
  perform (Collaborators := Demo.collab) Demo.bump_off_map
    (session (Demo.state_with MainGameEventHandler Demo.welcome))
  = (Raise (Impossible Demo.blocked),
     session (Demo.state_with MainGameEventHandler Demo.welcome))
  /\
  EventHandler_handle_action (Collab := Demo.collab) 0%nat
    (Some Demo.bump_off_map)
    (Demo.state_with MainGameEventHandler Demo.welcome)
  = (Return false,
     mkState
       (mkSession
          (mkEngine (Demo.welcome ++ [(Demo.blocked, (128, 128, 128))])
             0%nat (0, 0) 0%nat (0, 0))
          [MainGameEventHandler])
       [CallPerform Demo.bump_off_map;
        CallAddMessage Demo.blocked (128, 128, 128)]).
Proof.
  split; [reflexivity|].
  pose proof (handle_action_impossible_logs_and_skips
                (Collab := Demo.collab) 0%nat Demo.bump_off_map Demo.blocked
                (Demo.state_with MainGameEventHandler Demo.welcome)
                (session (Demo.state_with MainGameEventHandler Demo.welcome))
                eq_refl) as H.
  destruct (EventHandler_handle_action (Collab := Demo.collab) 0%nat
              (Some Demo.bump_off_map)
              (Demo.state_with MainGameEventHandler Demo.welcome))
    as [r [[[log h m pl w] objs] cs]].
  cbn in H. destruct H as (-> & -> & -> & -> & -> & -> & -> & ->).
  reflexivity.
Defined.

(** C2 at a bump onto the next tile. *)
Lemma handle_action_success_advances_turn_witness :
  perform (Collaborators := Demo.collab) Demo.bump_east
    (session (Demo.state_with MainGameEventHandler Demo.welcome))
  = (Return tt,
     Demo.set_world (1, 0)
       (session (Demo.state_with MainGameEventHandler Demo.welcome)))
  /\
  EventHandler_handle_action (Collab := Demo.collab) 0%nat
    (Some Demo.bump_east)
    (Demo.state_with MainGameEventHandler Demo.welcome)
  = (Return true,
     mkState
       (update_fov (Collaborators := Demo.collab)
          (handle_enemy_turns (Collaborators := Demo.collab)
             (Demo.set_world (1, 0)
                (session (Demo.state_with MainGameEventHandler Demo.welcome)))))
       [CallPerform Demo.bump_east; CallHandleEnemyTurns; CallUpdateFov]).
Proof.
  split; [reflexivity|].
  apply (proj1 (handle_action_success_advances_turn (Collab := Demo.collab))).
  reflexivity.
Defined.

(** C3 on the specification's example: five messages, cursor 0, [up]. *)
Lemma history_vertical_key_moves_cursor_witness :
  0 < 5 /\
  In (K_UP, -1) spec_vertical_steps /\
  ev_keydown 0%nat K_UP (Demo.state_with (HistoryViewer 5 0) Demo.welcome) =
    (Return None,
     with_object 0%nat (HistoryViewer 5 (spec_cursor_step 5 0 (-1)))
       (Demo.state_with (HistoryViewer 5 0) Demo.welcome)).
Proof.
  split; [reflexivity|]. split; [left; reflexivity|].
  apply (history_vertical_key_moves_cursor 0%nat K_UP (-1)
           (Demo.state_with (HistoryViewer 5 0) Demo.welcome) 5 0).
  - reflexivity.
  - reflexivity.
  - left; reflexivity.
Defined.

(** C4 fails on the code: over an empty log the viewer starts at
    [log_length = 0], [cursor = -1], and [up] moves the cursor to 0. *)
Lemma history_empty_log_up_is_not_a_noop :
  exists st1 st2,
    new_HistoryViewer (Demo.state_with MainGameEventHandler []) =
      (Return 1%nat, st1) /\
    log_length_of 1%nat st1 = Some 0 /\
    cursor_of 1%nat st1 = Some (-1) /\
    ev_keydown 1%nat K_UP st1 = (Return None, st2) /\
    cursor_of 1%nat st2 = Some 0 /\
    cursor_of 1%nat st2 <> Some (-1).
Proof.
  exists (with_new_object (HistoryViewer 0 (-1))
            (Demo.state_with MainGameEventHandler [])).
  exists (with_object 1%nat (HistoryViewer 0 0)
            (with_new_object (HistoryViewer 0 (-1))
               (Demo.state_with MainGameEventHandler []))).
  split; [reflexivity|]. split; [reflexivity|]. split; [reflexivity|].
  split; [reflexivity|]. split; [reflexivity|]. discriminate.
Qed.

(** C4 as amended, at [page down] over an empty log. *)
Lemma history_empty_log_vertical_key_sets_zero_witness :
  message_log (engine (session (Demo.state_with MainGameEventHandler []))) = []
  /\
  In (K_PAGEDOWN, 10) spec_vertical_steps /\
  exists st1,
    new_HistoryViewer (Demo.state_with MainGameEventHandler []) =
      (Return 1%nat, st1) /\
    objects (session st1) !! 1%nat = Some (HistoryViewer 0 (-1)) /\
    ev_keydown 1%nat K_PAGEDOWN st1 =
      (Return None, with_object 1%nat (HistoryViewer 0 0) st1).
Proof.
  split; [reflexivity|]. split; [do 3 right; left; reflexivity|].
  apply (history_empty_log_vertical_key_sets_zero K_PAGEDOWN 10
           (Demo.state_with MainGameEventHandler [])).
  - reflexivity.
  - do 3 right; left; reflexivity.
Defined.

(** C6 at the vi key [y]. *)
Lemma main_keydown_move_key_bumps_witness :
  In (K_y, (-1, -1)) MOVE_KEYS /\
  MainGameEventHandler_ev_keydown 0%nat K_y
    (Demo.state_with MainGameEventHandler Demo.welcome) =
    (Return (Some (BumpAction 0%nat (-1) (-1))),
     Demo.state_with MainGameEventHandler Demo.welcome).
Proof.
  assert (Hin : In (K_y, (-1, -1)) MOVE_KEYS).
  { do 21 right. left. reflexivity. }
  split; [exact Hin|].
  exact (main_keydown_move_key_bumps 0%nat K_y (-1) (-1)
           (Demo.state_with MainGameEventHandler Demo.welcome) Hin).
Defined.

(** C7 at a bump onto the next tile, asked from a modal prompt. *)
Lemma ask_user_handle_action_returns_to_main_witness :
  perform (Collaborators := Demo.collab) Demo.bump_east
    (session (Demo.state_with AskUserEventHandler Demo.welcome))
  = (Return tt,
     Demo.set_world (1, 0)
       (session (Demo.state_with AskUserEventHandler Demo.welcome)))
  /\
  exists st',
    AskUserEventHandler_handle_action (Collab := Demo.collab) 0%nat
      (Some Demo.bump_east)
      (Demo.state_with AskUserEventHandler Demo.welcome)
    = (Return true, st') /\
    active_handler st' = Some MainGameEventHandler.
Proof.
  split; [reflexivity|].
  destruct (proj1 (ask_user_handle_action_returns_to_main
                     (Collab := Demo.collab))
              0%nat Demo.bump_east
              (Demo.state_with AskUserEventHandler Demo.welcome)
              _ eq_refl)
    as (st' & Hrun & _ & Hactive).
  exists st'. split; [exact Hrun | exact Hactive].
Defined.

(** C8 at the escape key. *)
Lemma ask_user_keydown_exits_unless_modifier_witness :
  ~ In K_ESCAPE MODIFIER_KEYS /\
  AskUserEventHandler_ev_keydown 0%nat K_ESCAPE
    (Demo.state_with AskUserEventHandler Demo.welcome) =
    (Return None,
     entered_main (Demo.state_with AskUserEventHandler Demo.welcome)).
Proof.
  assert (Hnot : ~ In K_ESCAPE MODIFIER_KEYS).
  { intros Hin. cbn in Hin.
    repeat (destruct Hin as [Hin|Hin]; [discriminate Hin|]).
    exact Hin. }
  split; [exact Hnot|].
  exact (proj1 (proj1 ask_user_keydown_exits_unless_modifier 0%nat K_ESCAPE
                  (Demo.state_with AskUserEventHandler Demo.welcome) Hnot)).
Defined.

(** C9 at the [up] key. *)
Lemma game_over_keydown_only_escape_exits_witness :
  K_UP <> K_ESCAPE /\
  GameOverEventHandler_ev_keydown 0%nat K_UP
    (Demo.state_with GameOverEventHandler Demo.welcome) =
    (Return None, Demo.state_with GameOverEventHandler Demo.welcome) /\
  handle_events (Collab := Demo.collab) 0%nat (KeyDown K_UP)
    (Demo.state_with GameOverEventHandler Demo.welcome) =
    (Return tt, Demo.state_with GameOverEventHandler Demo.welcome).
Proof.
  assert (Hne : K_UP <> K_ESCAPE) by discriminate.
  split; [exact Hne|]. split.
  - exact (proj1 (proj2 (game_over_keydown_only_escape_exits
                           (Collab := Demo.collab)))
             0%nat K_UP (Demo.state_with GameOverEventHandler Demo.welcome)
             Hne).
  - exact (proj1 (proj2 (proj2 (game_over_keydown_only_escape_exits
                                  (Collab := Demo.collab))))
             0%nat K_UP (Demo.state_with GameOverEventHandler Demo.welcome)
             Hne eq_refl).
Defined.

(** C10 at [page down] from the middle of five messages. *)
Lemma history_cursor_stays_in_range_witness :
  1 <= 5 /\ 0 <= 2 <= 5 - 1 /\
  exists st' c',
    ev_keydown 0%nat K_PAGEDOWN
      (Demo.state_with (HistoryViewer 5 2) Demo.welcome) = (Return None, st') /\
    objects (session st') !! 0%nat = Some (HistoryViewer 5 c') /\
    0 <= c' <= 5 - 1.
Proof.
  assert (Hn : 1 <= 5) by discriminate.
  assert (Hc : 0 <= 2 <= 5 - 1) by (split; discriminate).
  split; [exact Hn|]. split; [exact Hc|].
  exact (proj2 history_cursor_stays_in_range 0%nat K_PAGEDOWN
           (Demo.state_with (HistoryViewer 5 2) Demo.welcome) 5 2
           eq_refl Hn Hc).
Defined.

(** ** Further properties of the handlers *)

Section FurtherProperties.
Context {World : Type} {Collab : @Collaborators World}.

Implicit Types (st : @State World) (s : @Session World).
Implicit Types (self : Ref) (sym key : KeySym) (h : Handler).

(** *** Events that never reach an action *)

Lemma handle_action_None self h st :
  objects (session st) !! self = Some h ->
  handle_action self None st = (Return false, st).
Proof.
  intros Hobj. rewrite (handle_action_resolves _ _ _ _ Hobj).
  destruct h; reflexivity.
Qed.

(** When the key handler returns no action and [self] still refers to an
    object, [handle_events] ends in the state the key handler left. *)
Lemma handle_events_keydown_no_action self sym st st' h' :
  ev_keydown self sym st = (Return None, st') ->
  objects (session st') !! self = Some h' ->
  handle_events self (KeyDown sym) st = (Return tt, st').
Proof.
  intros Hkey Hobj'. unfold handle_events, dispatch, bind.
  rewrite Hkey, (handle_action_None _ _ _ Hobj'). reflexivity.
Qed.

(** X1.  In every handler, [handle_events] on a mouse motion returns; when
    the tile is within the map it records the tile as [mouse_location] and
    changes nothing else, otherwise the state is left as it was.  No
    collaborator is called either way. *)
Theorem mouse_motion_only_moves_the_hover self h x y st :
  objects (session st) !! self = Some h ->
  handle_events self (MouseMotion x y) st =
    (Return tt,
     if in_bounds (session st) x y then hovering x y st else st).
Proof.
  intros Hobj. unfold handle_events, dispatch, bind.
  unfold EventHandler_ev_mousemotion.
  destruct (in_bounds (session st) x y).
  - assert (Hobj' : objects (session (hovering x y st)) !! self = Some h)
      by exact Hobj.
    unfold hovering in Hobj'.
    rewrite (handle_action_None _ _ _ Hobj'). reflexivity.
  - rewrite (handle_action_None _ _ _ Hobj). reflexivity.
Qed.

Lemma EventHandler_handle_action_other_exception self a exc st s' :
  perform a (session st) = (Raise exc, s') ->
  (forall msg, exc <> Impossible msg) ->
  EventHandler_handle_action self (Some a) st =
    (Raise exc, mkState s' (calls st ++ [CallPerform a])).
Proof.
  intros Hperf Hexc.
  unfold EventHandler_handle_action, try_except_Impossible.
  rewrite call_perform_computes, Hperf. cbn.
  destruct exc as [msg| | |name]; try reflexivity.
  exfalso. apply (Hexc msg). reflexivity.
Qed.

(** X2.  A non-[Impossible] exception raised by [action.perform()] passes
    through [handle_action], in the base class and in
    [AskUserEventHandler] alike: nothing is logged, no enemy turn and no
    visibility refresh run, no handler is activated, and the state is the
    one [perform] left. *)
Theorem handle_action_lets_other_exceptions_through self a exc st s' :
  perform a (session st) = (Raise exc, s') ->
  (forall msg, exc <> Impossible msg) ->
  EventHandler_handle_action self (Some a) st =
    (Raise exc, mkState s' (calls st ++ [CallPerform a])) /\
  AskUserEventHandler_handle_action self (Some a) st =
    (Raise exc, mkState s' (calls st ++ [CallPerform a])).
Proof.
  intros Hperf Hexc.
  pose proof (EventHandler_handle_action_other_exception
                self a exc st s' Hperf Hexc) as Hbase.
  split; [exact Hbase|].
  unfold AskUserEventHandler_handle_action, bind. rewrite Hbase. reflexivity.
Qed.

(** *** The main game handler *)

Lemma MainGame_keydown_v self st :
  MainGameEventHandler_ev_keydown self K_v st =
    (Return None, entered_history st).
Proof. reflexivity. Qed.

Lemma active_handler_entered_history st :
  active_handler (entered_history st) =
    Some (HistoryViewer
            (Z.of_nat (length (message_log (engine (session st)))))
            (Z.of_nat (length (message_log (engine (session st)))) - 1)).
Proof.
  unfold active_handler, entered_history. cbn.
  apply list_lookup_middle. reflexivity.
Qed.

(** X3.  In the main game, the whole of [handle_events] on the [v] key
    returns without a turn: a new [HistoryViewer] becomes the active
    handler, with [log_length] the number of messages now in the log and
    the cursor on the last of them; the log, the hover location, the
    player, the world and the trace of collaborator calls are as
    before. *)
Theorem main_v_opens_history_without_a_turn self st :
  objects (session st) !! self = Some MainGameEventHandler ->
  handle_events self (KeyDown K_v) st = (Return tt, entered_history st) /\
  active_handler (entered_history st) =
    Some (HistoryViewer
            (Z.of_nat (length (message_log (engine (session st)))))
            (Z.of_nat (length (message_log (engine (session st)))) - 1)) /\
  untouched_by_keys st (entered_history st).
Proof.
  intros Hobj. split; [|split].
  - apply (handle_events_keydown_no_action _ _ _ _ MainGameEventHandler).
    + rewrite (ev_keydown_resolves _ _ _ _ Hobj). apply MainGame_keydown_v.
    + cbn. apply lookup_app_l_Some, Hobj.
  - apply active_handler_entered_history.
  - repeat split.
Qed.

(** X4.  In the main game a key that is in neither table and is none of
    [v], [g] and escape is ignored: [handle_events] returns and the state
    is exactly as before. *)
Theorem main_unmapped_key_is_ignored self key st :
  objects (session st) !! self = Some MainGameEventHandler ->
  dict_get MOVE_KEYS key = None ->
  ~ In key WAIT_KEYS ->
  key <> K_v -> key <> K_g -> key <> K_ESCAPE ->
  handle_events self (KeyDown key) st = (Return tt, st).
Proof.
  intros Hobj Hmove Hwait Hv Hg Hesc.
  apply (handle_events_keydown_no_action _ _ _ _ MainGameEventHandler);
    [|exact Hobj].
  rewrite (ev_keydown_resolves _ _ _ _ Hobj).
  unfold MainGameEventHandler_ev_keydown, bind, get_engine. rewrite Hmove.
  destruct (set_mem key WAIT_KEYS) eqn:Hmem.
  { apply set_mem_In in Hmem. contradiction. }
  destruct (decide (key = K_v)); [contradiction|].
  destruct (decide (key = K_g)); [contradiction|].
  destruct (decide (key = K_ESCAPE)); [contradiction|].
  reflexivity.
Qed.

(** X5.  Whatever key is pressed in the main game, an action the key
    handler returns is built for the engine's player, returning it changes
    no state, and a bump never carries an offset of more than one tile in
    either direction. *)
Theorem main_action_is_the_players_and_one_tile self key st a st' :
  MainGameEventHandler_ev_keydown self key st = (Return (Some a), st') ->
  st' = st /\
  action_entity a = player (engine (session st)) /\
  (forall entity dx dy,
     a = BumpAction entity dx dy -> -1 <= dx <= 1 /\ -1 <= dy <= 1).
Proof.
  intros Hkey.
  destruct key; cbn in Hkey; try discriminate Hkey;
    injection Hkey as <- <-;
    (split; [reflexivity|]; split; [reflexivity|]);
    intros entity dx dy Ha; try discriminate Ha;
    injection Ha as _ <- <-; lia.
Qed.

(** *** The history viewer *)

Lemma with_object_twice_id self h h' st :
  objects (session st) !! self = Some h ->
  with_object self h (with_object self h' st) = st.
Proof.
  intros Hobj. destruct st as [[e objs] cs]. unfold with_object. cbn in *.
  rewrite list_insert_insert_eq, (list_insert_id _ _ _ Hobj). reflexivity.
Qed.

Lemma code_step_up_down n c :
  1 <= n -> 0 <= c <= n - 1 ->
  code_cursor_step n (code_cursor_step n c (-1)) 1 = c.
Proof.
  intros Hn Hc. unfold code_cursor_step.
  change (-1 <? 0) with true. change (1 <? 0) with false.
  change (1 >? 0) with true. change (-1 >? 0) with false. cbn [andb].
  destruct (Z.eqb_spec c 0) as [->|Hc0]; cbv iota.
  - rewrite Z.eqb_refl. reflexivity.
  - destruct (Z.eqb_spec (Z.max 0 (Z.min (c + -1) (n - 1))) (n - 1));
      cbv iota; lia.
Qed.

Lemma code_step_down_up n c :
  1 <= n -> 0 <= c <= n - 1 ->
  code_cursor_step n (code_cursor_step n c 1) (-1) = c.
Proof.
  intros Hn Hc. unfold code_cursor_step.
  change (-1 <? 0) with true. change (1 <? 0) with false.
  change (1 >? 0) with true. change (-1 >? 0) with false. cbn [andb].
  destruct (Z.eqb_spec c (n - 1)) as [->|Hc1]; cbv iota.
  - rewrite Z.eqb_refl. reflexivity.
  - destruct (Z.eqb_spec (Z.max 0 (Z.min (c + 1) (n - 1))) 0);
      cbv iota; lia.
Qed.

Lemma history_two_vertical_keys self sym1 sym2 a1 a2 st n c :
  objects (session st) !! self = Some (HistoryViewer n c) ->
  dict_get CURSOR_Y_KEYS sym1 = Some a1 ->
  dict_get CURSOR_Y_KEYS sym2 = Some a2 ->
  bind (ev_keydown self sym1) (fun _ => ev_keydown self sym2) st =
    (Return None,
     with_object self
       (HistoryViewer n (code_cursor_step n (code_cursor_step n c a1) a2))
       (with_object self (HistoryViewer n (code_cursor_step n c a1)) st)).
Proof.
  intros Hobj H1 H2. unfold bind.
  rewrite (ev_keydown_resolves _ _ _ _ Hobj).
  rewrite (HistoryViewer_keydown_vertical _ _ _ _ _ _ Hobj H1).
  pose proof (lookup_with_object self
                (HistoryViewer n (code_cursor_step n c a1)) st _ Hobj)
    as Hobj1.
  rewrite (ev_keydown_resolves _ _ _ _ Hobj1).
  rewrite (HistoryViewer_keydown_vertical _ _ _ _ _ _ Hobj1 H2).
  reflexivity.
Qed.

(** X6.  On a [HistoryViewer] with [log_length >= 1] and the cursor in
    range, [up] followed by [down], and [down] followed by [up], bring the
    viewer back to exactly the state it was in (the wrap at either end
    included). *)
Theorem history_up_and_down_undo_each_other self st n c :
  objects (session st) !! self = Some (HistoryViewer n c) ->
  1 <= n ->
  0 <= c <= n - 1 ->
  bind (ev_keydown self K_UP) (fun _ => ev_keydown self K_DOWN) st =
    (Return None, st) /\
  bind (ev_keydown self K_DOWN) (fun _ => ev_keydown self K_UP) st =
    (Return None, st).
Proof.
  intros Hobj Hn Hc. split.
  - rewrite (history_two_vertical_keys self K_UP K_DOWN (-1) 1 st n c Hobj
               eq_refl eq_refl).
    rewrite code_step_up_down by assumption.
    rewrite (with_object_twice_id _ _ _ _ Hobj). reflexivity.
  - rewrite (history_two_vertical_keys self K_DOWN K_UP 1 (-1) st n c Hobj
               eq_refl eq_refl).
    rewrite code_step_down_up by assumption.
    rewrite (with_object_twice_id _ _ _ _ Hobj). reflexivity.
Qed.

(** X7.  On a [HistoryViewer], whatever the cursor was, [Home] sets it to
    0 and [End] sets it to [log_length - 1]; nothing else changes and no
    action is returned. *)
Theorem history_home_and_end_jump self st n c :
  objects (session st) !! self = Some (HistoryViewer n c) ->
  ev_keydown self K_HOME st =
    (Return None, with_object self (HistoryViewer n 0) st) /\
  ev_keydown self K_END st =
    (Return None, with_object self (HistoryViewer n (n - 1)) st).
Proof.
  intros Hobj. rewrite !(ev_keydown_resolves _ _ _ _ Hobj). split.
  - apply (HistoryViewer_keydown_home _ _ _ _ Hobj).
  - apply (HistoryViewer_keydown_end _ _ _ _ Hobj).
Qed.

(** X8.  Over an empty log ([log_length = 0]) the cursor, which starts at
    -1, never leaves the two values -1 and 0, whatever keys are pressed:
    every key-down returns, keeps [log_length = 0] and leaves the cursor
    at -1 or 0. *)
Theorem history_empty_log_cursor_is_minus_one_or_zero self sym st c :
  objects (session st) !! self = Some (HistoryViewer 0 c) ->
  c = -1 \/ c = 0 ->
  exists st' c',
    ev_keydown self sym st = (Return None, st') /\
    objects (session st') !! self = Some (HistoryViewer 0 c') /\
    (c' = -1 \/ c' = 0).
Proof.
  intros Hobj Hc.
  rewrite (ev_keydown_resolves _ _ _ _ Hobj).
  destruct (dict_get CURSOR_Y_KEYS sym) as [adjust|] eqn:Hkey.
  { do 2 eexists. split; [|split].
    - apply (HistoryViewer_keydown_vertical _ _ _ _ _ _ Hobj Hkey).
    - eapply lookup_with_object, Hobj.
    - unfold code_cursor_step.
      destruct ((adjust <? 0) && (c =? 0)); [lia|].
      destruct ((adjust >? 0) && (c =? 0 - 1)); [lia|].
      destruct Hc as [-> | ->]; lia. }
  destruct (decide (sym = K_HOME)) as [->|Hhome].
  { do 2 eexists. split; [|split].
    - apply (HistoryViewer_keydown_home _ _ _ _ Hobj).
    - eapply lookup_with_object, Hobj.
    - lia. }
  destruct (decide (sym = K_END)) as [->|Hend].
  { do 2 eexists. split; [|split].
    - apply (HistoryViewer_keydown_end _ _ _ _ Hobj).
    - eapply lookup_with_object, Hobj.
    - lia. }
  exists (entered_main st), c. split; [|split].
  - apply HistoryViewer_keydown_other; assumption.
  - cbn. apply lookup_app_l_Some, Hobj.
  - exact Hc.
Qed.

(** X9.  What the history overlay shows.  With the cursor at [c], where
    [-1 <= c] and [c] is below the number of messages in the log,
    [on_render] hands [render_messages] the first [c + 1] messages of the
    log, oldest first: none at [c = -1], and otherwise up to and including
    message number [c]. *)
Theorem history_shows_messages_up_to_cursor self st n c :
  objects (session st) !! self = Some (HistoryViewer n c) ->
  -1 <= c < Z.of_nat (length (message_log (engine (session st)))) ->
  exists shown,
    HistoryViewer_shown_messages self st = (Return shown, st) /\
    shown = take (Z.to_nat (c + 1)) (message_log (engine (session st))) /\
    Z.of_nat (length shown) = c + 1 /\
    (0 <= c ->
     shown !! Z.to_nat c = message_log (engine (session st)) !! Z.to_nat c).
Proof.
  intros Hobj Hc. eexists. split; [|split; [reflexivity|split]].
  - unfold HistoryViewer_shown_messages, bind, get_engine.
    rewrite (get_history_on_history _ _ _ _ Hobj). unfold ret.
    do 2 f_equal. unfold py_slice_to.
    destruct (Z.ltb_spec (c + 1) 0); [lia|].
    f_equal. lia.
  - rewrite length_take. lia.
  - intros Hc0. apply lookup_take_lt. lia.
Qed.

(** *** What a key press can and cannot do *)

Lemma MainGame_keydown_cases self key st :
  (exists a, MainGameEventHandler_ev_keydown self key st
             = (Return (Some a), st)) \/
  MainGameEventHandler_ev_keydown self key st = (Return None, st) \/
  MainGameEventHandler_ev_keydown self key st
    = (Return None, entered_history st).
Proof.
  unfold MainGameEventHandler_ev_keydown, bind, get_engine.
  destruct (dict_get MOVE_KEYS key) as [[dx dy]|]; [left; eexists; reflexivity|].
  destruct (set_mem key WAIT_KEYS); [left; eexists; reflexivity|].
  destruct (decide (key = K_v)); [right; right; reflexivity|].
  destruct (decide (key = K_g)); [left; eexists; reflexivity|].
  destruct (decide (key = K_ESCAPE)); [left; eexists; reflexivity|].
  right; left; reflexivity.
Qed.

Lemma HistoryViewer_keydown_cases self sym st n c :
  objects (session st) !! self = Some (HistoryViewer n c) ->
  (exists c', HistoryViewer_ev_keydown self sym st
              = (Return None, with_object self (HistoryViewer n c') st)) \/
  HistoryViewer_ev_keydown self sym st = (Return None, entered_main st).
Proof.
  intros Hobj.
  destruct (dict_get CURSOR_Y_KEYS sym) as [adjust|] eqn:Hkey.
  { left. eexists.
    apply (HistoryViewer_keydown_vertical _ _ _ _ _ _ Hobj Hkey). }
  destruct (decide (sym = K_HOME)) as [->|Hhome].
  { left. eexists. apply (HistoryViewer_keydown_home _ _ _ _ Hobj). }
  destruct (decide (sym = K_END)) as [->|Hend].
  { left. eexists. apply (HistoryViewer_keydown_end _ _ _ _ Hobj). }
  right. apply HistoryViewer_keydown_other; assumption.
Qed.

Lemma untouched_refl st : untouched_by_keys st st.
Proof. repeat split. Qed.

Lemma keeps_handlers_refl self st : keeps_handlers self st st.
Proof. split; auto. Qed.

Lemma keeps_handlers_entered_main self st :
  keeps_handlers self st (entered_main st).
Proof.
  split.
  - intros r h _ Hr. cbn. apply lookup_app_l_Some, Hr.
  - intros _. rewrite active_handler_entered_main. eexists; reflexivity.
Qed.

Lemma keeps_handlers_entered_history self st :
  keeps_handlers self st (entered_history st).
Proof.
  split.
  - intros r h _ Hr. cbn. apply lookup_app_l_Some, Hr.
  - intros _. rewrite active_handler_entered_history. eexists; reflexivity.
Qed.

Lemma keeps_handlers_with_object self h st :
  keeps_handlers self st (with_object self h st).
Proof.
  split.
  - intros r h0 Hne Hr. unfold with_object. cbn.
    rewrite list_lookup_insert_ne by congruence. exact Hr.
  - unfold active_handler, with_object. cbn.
    rewrite !lookup_lt_is_Some, length_insert. auto.
Qed.

(** X10.  No key handler of any class touches the game: whatever the key
    and whatever [self] refers to, [ev_keydown] leaves the message log, the
    hover location, the player, the world and the trace of collaborator
    calls as they were, keeps every handler object other than [self], and
    leaves [engine.event_handler] referring to an object if it did
    before. *)
Theorem keydown_never_touches_the_game self sym st :
  untouched_by_keys st (snd (ev_keydown self sym st)) /\
  keeps_handlers self st (snd (ev_keydown self sym st)).
Proof.
  destruct (objects (session st) !! self) as [h|] eqn:Hobj.
  2:{ unfold ev_keydown, bind, deref. rewrite Hobj. cbn.
      split; [apply untouched_refl | apply keeps_handlers_refl]. }
  rewrite (ev_keydown_resolves _ _ _ _ Hobj). destruct h as [| | |n c].
  - unfold AskUserEventHandler_ev_keydown.
    destruct (set_mem sym MODIFIER_KEYS); cbn -[keeps_handlers].
    + split; [apply untouched_refl | apply keeps_handlers_refl].
    + split; [repeat split | apply keeps_handlers_entered_main].
  - destruct (MainGame_keydown_cases self sym st) as [[a ->] | [-> | ->]];
      cbn -[keeps_handlers entered_history].
    + split; [apply untouched_refl | apply keeps_handlers_refl].
    + split; [apply untouched_refl | apply keeps_handlers_refl].
    + split; [repeat split | apply keeps_handlers_entered_history].
  - unfold GameOverEventHandler_ev_keydown.
    destruct (decide (sym = K_ESCAPE)); cbn -[keeps_handlers];
      (split; [apply untouched_refl | apply keeps_handlers_refl]).
  - destruct (HistoryViewer_keydown_cases self sym st n c Hobj)
      as [[c' ->] | ->]; cbn -[keeps_handlers with_object entered_main].
    + split; [repeat split | apply keeps_handlers_with_object].
    + split; [repeat split | apply keeps_handlers_entered_main].
Qed.

(** *** Whole events, from dispatch to the end of the turn *)

(** X11.  Only the main game ever spends a turn on a key: in a modal
    prompt, in the history viewer and after the game is over (the escape
    key apart, which exits), [handle_events] on a key-down returns, calls
    no collaborator and leaves the log, the hover location, the player and
    the world as they were. *)
Theorem only_the_main_game_takes_turns self h sym st :
  objects (session st) !! self = Some h ->
  h <> MainGameEventHandler ->
  (h = GameOverEventHandler -> sym <> K_ESCAPE) ->
  exists st',
    handle_events self (KeyDown sym) st = (Return tt, st') /\
    untouched_by_keys st st'.
Proof.
  intros Hobj Hmain Hesc. destruct h as [| | |n c].
  - destruct (set_mem sym MODIFIER_KEYS) eqn:Hmem.
    + exists st. split; [|apply untouched_refl].
      apply (handle_events_keydown_no_action _ _ _ _ AskUserEventHandler);
        [|exact Hobj].
      rewrite (ev_keydown_resolves _ _ _ _ Hobj).
      unfold AskUserEventHandler_ev_keydown. rewrite Hmem. reflexivity.
    + exists (entered_main st). split; [|repeat split].
      apply (handle_events_keydown_no_action _ _ _ _ AskUserEventHandler).
      * rewrite (ev_keydown_resolves _ _ _ _ Hobj).
        unfold AskUserEventHandler_ev_keydown. rewrite Hmem. reflexivity.
      * cbn. apply lookup_app_l_Some, Hobj.
  - contradiction.
  - exists st. split; [|apply untouched_refl].
    apply (handle_events_keydown_no_action _ _ _ _ GameOverEventHandler);
      [|exact Hobj].
    rewrite (ev_keydown_resolves _ _ _ _ Hobj).
    unfold GameOverEventHandler_ev_keydown.
    destruct (decide (sym = K_ESCAPE)) as [Heq|_]; [|reflexivity].
    exfalso. exact (Hesc eq_refl Heq).
  - destruct (HistoryViewer_keydown_cases self sym st n c Hobj)
      as [[c' Hrun] | Hrun].
    + exists (with_object self (HistoryViewer n c') st).
      split; [|repeat split].
      apply (handle_events_keydown_no_action _ _ _ _ (HistoryViewer n c')).
      * rewrite (ev_keydown_resolves _ _ _ _ Hobj). exact Hrun.
      * eapply lookup_with_object, Hobj.
    + exists (entered_main st). split; [|repeat split].
      apply (handle_events_keydown_no_action _ _ _ _ (HistoryViewer n c)).
      * rewrite (ev_keydown_resolves _ _ _ _ Hobj). exact Hrun.
      * cbn. apply lookup_app_l_Some, Hobj.
Qed.

(** X12.  In the history viewer a key that is neither a vertical
    navigation key nor [Home] nor [End] closes the viewer: [handle_events]
    returns, a fresh [MainGameEventHandler] is the active handler, and the
    viewer object itself is left as it was. *)
Theorem history_any_other_key_returns_to_main self sym st n c :
  objects (session st) !! self = Some (HistoryViewer n c) ->
  dict_get CURSOR_Y_KEYS sym = None ->
  sym <> K_HOME -> sym <> K_END ->
  handle_events self (KeyDown sym) st = (Return tt, entered_main st) /\
  active_handler (entered_main st) = Some MainGameEventHandler /\
  objects (session (entered_main st)) !! self = Some (HistoryViewer n c).
Proof.
  intros Hobj Hkey Hhome Hend.
  assert (Hobj' : objects (session (entered_main st)) !! self
                  = Some (HistoryViewer n c)).
  { cbn. apply lookup_app_l_Some, Hobj. }
  split; [|split; [apply active_handler_entered_main | exact Hobj']].
  apply (handle_events_keydown_no_action _ _ _ _ (HistoryViewer n c));
    [|exact Hobj'].
  rewrite (ev_keydown_resolves _ _ _ _ Hobj).
  apply HistoryViewer_keydown_other; assumption.
Qed.

Lemma handle_events_main_action self key a st :
  objects (session st) !! self = Some MainGameEventHandler ->
  MainGameEventHandler_ev_keydown self key st = (Return (Some a), st) ->
  handle_events self (KeyDown key) st =
    bind (EventHandler_handle_action self (Some a)) (fun _ => ret tt) st.
Proof.
  intros Hobj Hkey. unfold handle_events, dispatch.
  unfold bind at 1. rewrite (ev_keydown_resolves _ _ _ _ Hobj), Hkey.
  unfold bind. rewrite (handle_action_resolves _ _ _ _ Hobj). reflexivity.
Qed.

(** X13.  A whole move in the main game.  For an entry [key: (dx, dy)] of
    [MOVE_KEYS], [handle_events] on that key-down performs
    [BumpAction(player, dx, dy)]: when the action succeeds, the enemies
    take their turn and the field of view is refreshed, in that order;
    when it raises [Impossible msg], its message is appended to the log
    and neither runs.  [handle_events] returns in both cases. *)
Theorem main_move_key_plays_a_turn self key dx dy st :
  objects (session st) !! self = Some MainGameEventHandler ->
  In (key, (dx, dy)) MOVE_KEYS ->
  (forall s1,
     perform (BumpAction (player (engine (session st))) dx dy) (session st)
       = (Return tt, s1) ->
     handle_events self (KeyDown key) st =
       (Return tt,
        mkState (update_fov (handle_enemy_turns s1))
          (calls st ++
             [CallPerform (BumpAction (player (engine (session st))) dx dy);
              CallHandleEnemyTurns; CallUpdateFov])))
  /\
  (forall msg s1,
     perform (BumpAction (player (engine (session st))) dx dy) (session st)
       = (Raise (Impossible msg), s1) ->
     handle_events self (KeyDown key) st =
       (Return tt,
        mkState
          (set_message_log
             (message_log (engine s1) ++ [(msg, color_impossible)]) s1)
          (calls st ++
             [CallPerform (BumpAction (player (engine (session st))) dx dy);
              CallAddMessage msg color_impossible]))).
Proof.
  intros Hobj Hin.
  assert (Hkey : MainGameEventHandler_ev_keydown self key st =
                 (Return (Some (BumpAction (player (engine (session st)))
                                  dx dy)), st)).
  { cbn in Hin.
    repeat (destruct Hin as [Hin|Hin];
            [injection Hin as <- <- <-; reflexivity|]).
    destruct Hin. }
  rewrite (handle_events_main_action _ _ _ _ Hobj Hkey). split.
  - intros s1 Hperf. unfold bind.
    rewrite (EventHandler_handle_action_success _ _ _ _ Hperf). reflexivity.
  - intros msg s1 Hperf. unfold bind.
    rewrite (EventHandler_handle_action_impossible _ _ _ _ _ Hperf).
    reflexivity.
Qed.

(** X14.  A whole key press in a modal prompt: on a modifier key
    [handle_events] returns with the state as it was; on any other key it
    returns with a fresh [MainGameEventHandler] active and nothing else
    changed.  Neither costs a turn. *)
Theorem ask_user_key_press_ends_the_prompt self sym st :
  objects (session st) !! self = Some AskUserEventHandler ->
  handle_events self (KeyDown sym) st =
    (Return tt, if set_mem sym MODIFIER_KEYS then st else entered_main st).
Proof.
  intros Hobj. destruct (set_mem sym MODIFIER_KEYS) eqn:Hmem.
  - apply (handle_events_keydown_no_action _ _ _ _ AskUserEventHandler);
      [|exact Hobj].
    rewrite (ev_keydown_resolves _ _ _ _ Hobj).
    unfold AskUserEventHandler_ev_keydown. rewrite Hmem. reflexivity.
  - apply (handle_events_keydown_no_action _ _ _ _ AskUserEventHandler).
    + rewrite (ev_keydown_resolves _ _ _ _ Hobj).
      unfold AskUserEventHandler_ev_keydown. rewrite Hmem. reflexivity.
    + cbn. apply lookup_app_l_Some, Hobj.
Qed.

(** *** Where exceptions come from *)



(** *** The move table and the way into and out of the log *)

(** X16.  Every neighbouring tile can be reached, and so can the player's
    own: for each offset with both components between -1 and 1 there is a
    key of [MOVE_KEYS] whose key-down in the main game returns the bump by
    exactly that offset. *)
Theorem every_one_tile_offset_has_a_move_key dx dy :
  -1 <= dx <= 1 ->
  -1 <= dy <= 1 ->
  exists key,
    In (key, (dx, dy)) MOVE_KEYS /\
    forall self st,
      MainGameEventHandler_ev_keydown (World := World) self key st =
        (Return (Some (BumpAction (player (engine (session st))) dx dy)), st).
Proof.
  intros Hdx Hdy.
  assert (Hx : dx = -1 \/ dx = 0 \/ dx = 1) by lia.
  assert (Hy : dy = -1 \/ dy = 0 \/ dy = 1) by lia.
  destruct Hx as [-> | [-> | ->]], Hy as [-> | [-> | ->]].
  - exists K_y. split; [cbn; tauto | reflexivity].
  - exists K_h. split; [cbn; tauto | reflexivity].
  - exists K_b. split; [cbn; tauto | reflexivity].
  - exists K_k. split; [cbn; tauto | reflexivity].
  - exists K_KP_5. split; [cbn; tauto | reflexivity].
  - exists K_j. split; [cbn; tauto | reflexivity].
  - exists K_u. split; [cbn; tauto | reflexivity].
  - exists K_l. split; [cbn; tauto | reflexivity].
  - exists K_n. split; [cbn; tauto | reflexivity].
Qed.

(** X17.  Into the message history and out again.  From the main game, the
    [v] key followed by a key press, delivered to the handler that is then
    active, that is neither a navigation key nor [Home] nor [End], ends
    with a [MainGameEventHandler] active again; both events return, no
    collaborator is called, and the log, the hover location, the player
    and the world are as they were. *)
Theorem history_round_trip_from_main self sym st :
  objects (session st) !! self = Some MainGameEventHandler ->
  dict_get CURSOR_Y_KEYS sym = None ->
  sym <> K_HOME -> sym <> K_END ->
  bind (handle_events self (KeyDown K_v))
    (fun _ => bind get_engine
       (fun e => handle_events (event_handler e) (KeyDown sym))) st =
    (Return tt, entered_main (entered_history st)) /\
  active_handler (entered_main (entered_history st))
    = Some MainGameEventHandler /\
  untouched_by_keys st (entered_main (entered_history st)).
Proof.
  intros Hobj Hkey Hhome Hend.
  split; [|split; [apply active_handler_entered_main | repeat split]].
  assert (Hopen : handle_events self (KeyDown K_v) st =
                  (Return tt, entered_history st)).
  { apply (handle_events_keydown_no_action _ _ _ _ MainGameEventHandler).
    - rewrite (ev_keydown_resolves _ _ _ _ Hobj). apply MainGame_keydown_v.
    - cbn. apply lookup_app_l_Some, Hobj. }
  set (n := Z.of_nat (length (message_log (engine (session st))))).
  assert (Hviewer : objects (session (entered_history st))
                      !! length (objects (session st))
                    = Some (HistoryViewer n (n - 1))).
  { cbn. apply list_lookup_middle. reflexivity. }
  unfold bind at 1. rewrite Hopen. unfold bind, get_engine.
  change (event_handler (engine (session (entered_history st))))
    with (length (objects (session st))).
  apply (handle_events_keydown_no_action _ _ _ _ (HistoryViewer n (n - 1))).
  - rewrite (ev_keydown_resolves _ _ _ _ Hviewer).
    apply HistoryViewer_keydown_other; assumption.
  - cbn. apply lookup_app_l_Some. apply list_lookup_middle. reflexivity.
Qed.

End FurtherProperties.

(** *** Instances of the further properties *)

(** X1 at a tile on the map, from the main game. *)
Lemma mouse_motion_only_moves_the_hover_witness :
  objects (session (Demo.state_with MainGameEventHandler Demo.welcome))
    !! 0%nat = Some MainGameEventHandler /\
  handle_events (Collab := Demo.collab) 0%nat (MouseMotion 3 4)
    (Demo.state_with MainGameEventHandler Demo.welcome) =
    (Return tt,
     hovering 3 4 (Demo.state_with MainGameEventHandler Demo.welcome)).
Proof.
  split; [reflexivity|].
  exact (mouse_motion_only_moves_the_hover (Collab := Demo.collab)
           0%nat MainGameEventHandler 3 4
           (Demo.state_with MainGameEventHandler Demo.welcome) eq_refl).
Defined.

(** X2 at the escape action, whose [perform] raises [SystemExit]. *)
Lemma handle_action_lets_other_exceptions_through_witness :
  perform (Collaborators := Demo.collab) (EscapeAction 0%nat)
    (session (Demo.state_with AskUserEventHandler Demo.welcome))
  = (Raise SystemExit,
     session (Demo.state_with AskUserEventHandler Demo.welcome)) /\
  (forall msg, SystemExit <> Impossible msg) /\
  AskUserEventHandler_handle_action (Collab := Demo.collab) 0%nat
    (Some (EscapeAction 0%nat))
    (Demo.state_with AskUserEventHandler Demo.welcome) =
    (Raise SystemExit,
     mkState (session (Demo.state_with AskUserEventHandler Demo.welcome))
       ([] ++ [CallPerform (EscapeAction 0%nat)])).
Proof.
  assert (Hexc : forall msg, SystemExit <> Impossible msg)
    by (intros msg; discriminate).
  split; [reflexivity|]. split; [exact Hexc|].
  exact (proj2 (handle_action_lets_other_exceptions_through
                  (Collab := Demo.collab) 0%nat (EscapeAction 0%nat)
                  SystemExit
                  (Demo.state_with AskUserEventHandler Demo.welcome)
                  _ eq_refl Hexc)).
Defined.

(** X3 over a log of one message. *)
Lemma main_v_opens_history_without_a_turn_witness :
  objects (session (Demo.state_with MainGameEventHandler Demo.welcome))
    !! 0%nat = Some MainGameEventHandler /\
  handle_events (Collab := Demo.collab) 0%nat (KeyDown K_v)
    (Demo.state_with MainGameEventHandler Demo.welcome) =
    (Return tt,
     entered_history (Demo.state_with MainGameEventHandler Demo.welcome)) /\
  active_handler
    (entered_history (Demo.state_with MainGameEventHandler Demo.welcome))
  = Some (HistoryViewer 1 0).
Proof.
  split; [reflexivity|].
  destruct (main_v_opens_history_without_a_turn (Collab := Demo.collab)
              0%nat (Demo.state_with MainGameEventHandler Demo.welcome)
              eq_refl)
    as (Hrun & Hactive & _).
  split; [exact Hrun | exact Hactive].
Defined.

(** X4 at a key the module never mentions. *)
Lemma main_unmapped_key_is_ignored_witness :
  dict_get MOVE_KEYS (K_OTHER 9) = None /\
  ~ In (K_OTHER 9) WAIT_KEYS /\
  handle_events (Collab := Demo.collab) 0%nat (KeyDown (K_OTHER 9))
    (Demo.state_with MainGameEventHandler Demo.welcome) =
    (Return tt, Demo.state_with MainGameEventHandler Demo.welcome).
Proof.
  assert (Hwait : ~ In (K_OTHER 9) WAIT_KEYS).
  { intros Hin. cbn in Hin.
    repeat (destruct Hin as [Hin|Hin]; [discriminate Hin|]).
    exact Hin. }
  split; [reflexivity|]. split; [exact Hwait|].
  apply (main_unmapped_key_is_ignored (Collab := Demo.collab) 0%nat
           (K_OTHER 9) (Demo.state_with MainGameEventHandler Demo.welcome)
           eq_refl eq_refl Hwait);
    discriminate.
Defined.

(** X5 at the pick-up key. *)
Lemma main_action_is_the_players_and_one_tile_witness :
  MainGameEventHandler_ev_keydown 0%nat K_g
    (Demo.state_with MainGameEventHandler Demo.welcome) =
    (Return (Some (PickupAction 0%nat)),
     Demo.state_with MainGameEventHandler Demo.welcome) /\
  action_entity (PickupAction 0%nat) =
    player (engine (session
      (Demo.state_with MainGameEventHandler Demo.welcome))).
Proof.
  split; [reflexivity|].
  exact (proj1 (proj2
           (main_action_is_the_players_and_one_tile 0%nat K_g
              (Demo.state_with MainGameEventHandler Demo.welcome)
              (PickupAction 0%nat)
              (Demo.state_with MainGameEventHandler Demo.welcome)
              eq_refl))).
Defined.

(** X6 at the top of five messages, where [up] wraps to the bottom. *)
Lemma history_up_and_down_undo_each_other_witness :
  1 <= 5 /\ 0 <= 0 <= 5 - 1 /\
  bind (ev_keydown 0%nat K_UP) (fun _ => ev_keydown 0%nat K_DOWN)
    (Demo.state_with (HistoryViewer 5 0) Demo.welcome) =
    (Return None, Demo.state_with (HistoryViewer 5 0) Demo.welcome).
Proof.
  assert (Hn : 1 <= 5) by discriminate.
  assert (Hc : 0 <= 0 <= 5 - 1) by (split; discriminate).
  split; [exact Hn|]. split; [exact Hc|].
  exact (proj1 (history_up_and_down_undo_each_other 0%nat
                  (Demo.state_with (HistoryViewer 5 0) Demo.welcome) 5 0
                  eq_refl Hn Hc)).
Defined.

(** X7 from the middle of five messages. *)
Lemma history_home_and_end_jump_witness :
  objects (session (Demo.state_with (HistoryViewer 5 2) Demo.welcome))
    !! 0%nat = Some (HistoryViewer 5 2) /\
  ev_keydown 0%nat K_HOME
    (Demo.state_with (HistoryViewer 5 2) Demo.welcome) =
    (Return None, Demo.state_with (HistoryViewer 5 0) Demo.welcome) /\
  ev_keydown 0%nat K_END
    (Demo.state_with (HistoryViewer 5 2) Demo.welcome) =
    (Return None, Demo.state_with (HistoryViewer 5 4) Demo.welcome).
Proof.
  split; [reflexivity|].
  exact (history_home_and_end_jump 0%nat
           (Demo.state_with (HistoryViewer 5 2) Demo.welcome) 5 2 eq_refl).
Defined.

(** X8 at [up] from cursor 0 over an empty log, which gives -1 again. *)
Lemma history_empty_log_cursor_is_minus_one_or_zero_witness :
  (0 = -1 \/ 0 = 0) /\
  exists st' c',
    ev_keydown 0%nat K_UP (Demo.state_with (HistoryViewer 0 0) []) =
      (Return None, st') /\
    objects (session st') !! 0%nat = Some (HistoryViewer 0 c') /\
    (c' = -1 \/ c' = 0).
Proof.
  assert (Hc : 0 = -1 \/ 0 = 0) by (right; reflexivity).
  split; [exact Hc|].
  exact (history_empty_log_cursor_is_minus_one_or_zero 0%nat K_UP
           (Demo.state_with (HistoryViewer 0 0) []) 0 eq_refl Hc).
Defined.

(** X9 on the one-message log with the cursor on that message. *)
Lemma history_shows_messages_up_to_cursor_witness :
  -1 <= 0 < Z.of_nat (length Demo.welcome) /\
  exists shown,
    HistoryViewer_shown_messages 0%nat
      (Demo.state_with (HistoryViewer 1 0) Demo.welcome) =
      (Return shown, Demo.state_with (HistoryViewer 1 0) Demo.welcome) /\
    shown = Demo.welcome.
Proof.
  assert (Hc : -1 <= 0 < Z.of_nat (length Demo.welcome))
    by (split; [discriminate|reflexivity]).
  split; [exact Hc|].
  destruct (history_shows_messages_up_to_cursor 0%nat
              (Demo.state_with (HistoryViewer 1 0) Demo.welcome) 1 0
              eq_refl Hc)
    as (shown & Hrun & Hshown & _).
  exists shown. split; [exact Hrun | exact Hshown].
Defined.

(** X11 at the escape key in a modal prompt. *)
Lemma only_the_main_game_takes_turns_witness :
  AskUserEventHandler <> MainGameEventHandler /\
  exists st',
    handle_events (Collab := Demo.collab) 0%nat (KeyDown K_ESCAPE)
      (Demo.state_with AskUserEventHandler Demo.welcome) = (Return tt, st') /\
    untouched_by_keys (Demo.state_with AskUserEventHandler Demo.welcome) st'.
Proof.
  assert (Hne : AskUserEventHandler <> MainGameEventHandler) by discriminate.
  split; [exact Hne|].
  apply (only_the_main_game_takes_turns (Collab := Demo.collab) 0%nat
           AskUserEventHandler K_ESCAPE
           (Demo.state_with AskUserEventHandler Demo.welcome) eq_refl Hne).
  intros Heq. discriminate Heq.
Defined.

(** X12 at the escape key in the history viewer. *)
Lemma history_any_other_key_returns_to_main_witness :
  dict_get CURSOR_Y_KEYS K_ESCAPE = None /\
  K_ESCAPE <> K_HOME /\ K_ESCAPE <> K_END /\
  handle_events (Collab := Demo.collab) 0%nat (KeyDown K_ESCAPE)
    (Demo.state_with (HistoryViewer 1 0) Demo.welcome) =
    (Return tt,
     entered_main (Demo.state_with (HistoryViewer 1 0) Demo.welcome)).
Proof.
  assert (Hhome : K_ESCAPE <> K_HOME) by discriminate.
  assert (Hend : K_ESCAPE <> K_END) by discriminate.
  split; [reflexivity|]. split; [exact Hhome|]. split; [exact Hend|].
  exact (proj1 (history_any_other_key_returns_to_main
                  (Collab := Demo.collab) 0%nat K_ESCAPE
                  (Demo.state_with (HistoryViewer 1 0) Demo.welcome) 1 0
                  eq_refl eq_refl Hhome Hend)).
Defined.

(** X13 at the [l] key, which moves the player one tile to the east. *)
Lemma main_move_key_plays_a_turn_witness :
  In (K_l, (1, 0)) MOVE_KEYS /\
  perform (Collaborators := Demo.collab) (BumpAction 0%nat 1 0)
    (session (Demo.state_with MainGameEventHandler Demo.welcome))
  = (Return tt,
     Demo.set_world (1, 0)
       (session (Demo.state_with MainGameEventHandler Demo.welcome))) /\
  handle_events (Collab := Demo.collab) 0%nat (KeyDown K_l)
    (Demo.state_with MainGameEventHandler Demo.welcome) =
    (Return tt,
     mkState
       (Demo.set_world (1, 0)
          (session (Demo.state_with MainGameEventHandler Demo.welcome)))
       [CallPerform (BumpAction 0%nat 1 0); CallHandleEnemyTurns;
        CallUpdateFov]).
Proof.
  assert (Hin : In (K_l, (1, 0)) MOVE_KEYS).
  { do 20 right. left. reflexivity. }
  split; [exact Hin|]. split; [reflexivity|].
  exact (proj1 (main_move_key_plays_a_turn (Collab := Demo.collab)
                  0%nat K_l 1 0
                  (Demo.state_with MainGameEventHandler Demo.welcome)
                  eq_refl Hin)
           _ eq_refl).
Defined.

(** X14 at a shift key and at the escape key. *)
Lemma ask_user_key_press_ends_the_prompt_witness :
  handle_events (Collab := Demo.collab) 0%nat (KeyDown K_LSHIFT)
    (Demo.state_with AskUserEventHandler Demo.welcome) =
    (Return tt, Demo.state_with AskUserEventHandler Demo.welcome) /\
  handle_events (Collab := Demo.collab) 0%nat (KeyDown K_ESCAPE)
    (Demo.state_with AskUserEventHandler Demo.welcome) =
    (Return tt,
     entered_main (Demo.state_with AskUserEventHandler Demo.welcome)).
Proof.
  split.
  - exact (ask_user_key_press_ends_the_prompt (Collab := Demo.collab)
             0%nat K_LSHIFT
             (Demo.state_with AskUserEventHandler Demo.welcome) eq_refl).
  - exact (ask_user_key_press_ends_the_prompt (Collab := Demo.collab)
             0%nat K_ESCAPE
             (Demo.state_with AskUserEventHandler Demo.welcome) eq_refl).
Defined.


(** X16 at the offset to the north-east. *)
Lemma every_one_tile_offset_has_a_move_key_witness :
  -1 <= 1 <= 1 /\ -1 <= -1 <= 1 /\
  exists key,
    In (key, (1, -1)) MOVE_KEYS /\
    MainGameEventHandler_ev_keydown 0%nat key
      (Demo.state_with MainGameEventHandler Demo.welcome) =
      (Return (Some (BumpAction 0%nat 1 (-1))),
       Demo.state_with MainGameEventHandler Demo.welcome).
Proof.
  assert (Hdx : -1 <= 1 <= 1) by (split; discriminate).
  assert (Hdy : -1 <= -1 <= 1) by (split; discriminate).
  split; [exact Hdx|]. split; [exact Hdy|].
  destruct (every_one_tile_offset_has_a_move_key (World := Demo.World)
              1 (-1) Hdx Hdy)
    as (key & Hin & Hrun).
  exists key. split; [exact Hin|].
  exact (Hrun 0%nat (Demo.state_with MainGameEventHandler Demo.welcome)).
Defined.

(** X17 with the escape key closing the viewer. *)
Lemma history_round_trip_from_main_witness :
  dict_get CURSOR_Y_KEYS K_ESCAPE = None /\
  bind (handle_events (Collab := Demo.collab) 0%nat (KeyDown K_v))
    (fun _ => bind get_engine
       (fun e => handle_events (Collab := Demo.collab) (event_handler e)
                   (KeyDown K_ESCAPE)))
    (Demo.state_with MainGameEventHandler Demo.welcome) =
    (Return tt,
     mkState
       (mkSession (mkEngine Demo.welcome 2%nat (0, 0) 0%nat (0, 0))
          [MainGameEventHandler; HistoryViewer 1 0; MainGameEventHandler])
       []).
Proof.
  assert (Hhome : K_ESCAPE <> K_HOME) by discriminate.
  assert (Hend : K_ESCAPE <> K_END) by discriminate.
  split; [reflexivity|].
  exact (proj1 (history_round_trip_from_main (Collab := Demo.collab)
                  0%nat K_ESCAPE
                  (Demo.state_with MainGameEventHandler Demo.welcome)
                  eq_refl eq_refl Hhome Hend)).
Defined.
